(** * ST7567 128x64 LCD driver (tetherpoint_st7567.py): a shallow embedding

    The driver is a MicroPython class that talks to three collaborators: an
    SPI bus ([spi.write]), GPIO pins ([pin.init], [pin.value]) and the clock
    ([time.sleep_us]).  Every call the driver makes on a collaborator is
    recorded as an [event]; a method is a function from the object's
    attributes to an outcome (normal return or a raised exception), the
    attributes afterwards and the events it produced, oldest first. *)

From Stdlib Require Import ZArith List Bool Lia.
Import ListNotations.
Open Scope Z_scope.

(** ** Constants: display registers *)

Definition ST7567_DISPLAY_OFF : Z := 0xAE.
Definition ST7567_DISPLAY_ON : Z := 0xAF.
Definition ST7567_SET_START_LINE : Z := 0x40.
Definition ST7567_SET_PAGE_ADDRESS : Z := 0xB0.
Definition ST7567_SET_COL_ADDRESS_MSB : Z := 0x10.
Definition ST7567_SET_COL_ADDRESS_LSB : Z := 0x00.
Definition ST7567_READ_STATUS : Z := 0x00.
Definition ST7567_SEG_DIRECTION_NORMAL : Z := 0xA0.
Definition ST7567_SEG_DIRECTION_REVERSE : Z := 0xA1.
Definition ST7567_DISPLAY_NORMAL : Z := 0xA6.
Definition ST7567_DISPLAY_INVERSE : Z := 0xA7.
Definition ST7567_DISPLAY_ALL_PIXELS_NORMAL : Z := 0xA4.
Definition ST7567_DISPLAY_ALL_PIXELS_ON : Z := 0xA5.
Definition ST7567_BIAS_SELECT_1DIV9 : Z := 0xA2.
Definition ST7567_BIAS_SELECT_1DIV7 : Z := 0xA3.
Definition ST7567_READ_MODIFY_WRITE : Z := 0xE0.
Definition ST7567_READ_MODIFY_WRITE_END : Z := 0xEE.
Definition ST7567_RESET : Z := 0xE2.
Definition ST7567_COM_DIRECTION_NORMAL : Z := 0xC0.
Definition ST7567_COM_DIRECTION_REVERSE : Z := 0xC8.
Definition ST7567_POWER_CONTROL : Z := 0x28.
Definition ST7567_REGULATION_RATIO : Z := 0x20.
Definition ST7567_SET_EV_START : Z := 0x81.
Definition ST7567_SET_BOOSTER_START : Z := 0xF8.
Definition ST7567_SET_BOOSTER_4X : Z := 0x00.
Definition ST7567_SET_BOOSTER_5X : Z := 0x01.

(** ** Python values the driver handles *)

(** A constructor argument for a control line: Python's [None] or a pin
    object (identified by its GPIO number). *)
Inductive pyobj : Type :=
| PyNone
| PyPin (gpio : Z).

(** [x != None] *)
Definition ne_None (x : pyobj) : bool :=
  match x with PyNone => false | PyPin _ => true end.

(** What [_write_command] receives: the methods pass either a bare integer
    or a list of integers. *)
Inductive pycmd : Type :=
| PyInt (n : Z)
| PyList (l : list Z).

Inductive exn : Type :=
| AttributeError
| ValueError.

(** The control line an attribute of the driver refers to. *)
Inductive line : Type := CS | DC | RS.

(** Calls on the collaborators. *)
Inductive event : Type :=
| PinInit (l : line) (value : Z)     (* self.<l>.init(OUT, value=value) *)
| PinValue (l : line) (v : Z)        (* self.<l>.value(v) *)
| SleepUs (n : Z)                    (* time.sleep_us(n) *)
| SpiWrite (data : list Z).          (* self.spi.write(data) *)

(** ** The object

    [cs] and [rs] are [None] while the attribute has never been assigned:
    reading it then raises [AttributeError].  [_xoffset] and [buffer] are
    assigned unconditionally by the constructor before any read. *)
Record ST7567 : Type := mkST7567 {
  _xoffset : Z;
  cs : option pyobj;
  rs : option pyobj;
  buffer : list Z
}.

Definition set_xoffset (x : Z) (s : ST7567) : ST7567 :=
  mkST7567 x (cs s) (rs s) (buffer s).
Definition set_cs (p : pyobj) (s : ST7567) : ST7567 :=
  mkST7567 (_xoffset s) (Some p) (rs s) (buffer s).
Definition set_rs (p : pyobj) (s : ST7567) : ST7567 :=
  mkST7567 (_xoffset s) (cs s) (Some p) (buffer s).
Definition set_buffer (b : list Z) (s : ST7567) : ST7567 :=
  mkST7567 (_xoffset s) (cs s) (rs s) b.

(** ** Methods as computations: state, event log and exceptions *)

Inductive outcome (A : Type) : Type :=
| Returned (a : A)
| Raised (e : exn).
Arguments Returned {A} a.
Arguments Raised {A} e.

Definition M (A : Type) : Type := ST7567 -> outcome A * ST7567 * list event.

Definition ret {A} (a : A) : M A := fun s => (Returned a, s, []).

Definition bind {A B} (m : M A) (k : A -> M B) : M B :=
  fun s =>
    match m s with
    | (Returned a, s1, e1) =>
        match k a s1 with
        | (r, s2, e2) => (r, s2, e1 ++ e2)
        end
    | (Raised x, s1, e1) => (Raised x, s1, e1)
    end.

Definition raise {A} (x : exn) : M A := fun s => (Raised x, s, []).
Definition emit (e : event) : M unit := fun s => (Returned tt, s, [e]).
Definition get {A} (f : ST7567 -> A) : M A := fun s => (Returned (f s), s, []).
Definition modify (f : ST7567 -> ST7567) : M unit :=
  fun s => (Returned tt, f s, []).

Notation "x <- m ;; k" := (bind m (fun x => k))
  (at level 61, m at next level, right associativity).
Notation "m ;; k" := (bind m (fun _ => k))
  (at level 61, right associativity).

(** [for x in xs: body(x)] *)
Fixpoint for_each {A} (xs : list A) (body : A -> M unit) : M unit :=
  match xs with
  | [] => ret tt
  | x :: xs' => body x ;; for_each xs' body
  end.

(** Reading an attribute that may never have been assigned. *)
Definition getattr (f : ST7567 -> option pyobj) : M pyobj :=
  fun s =>
    match f s with
    | Some v => (Returned v, s, [])
    | None => (Raised AttributeError, s, [])
    end.

(** [obj.value(v)] on what an attribute holds; [None] has no [value]. *)
Definition pin_value (l : line) (obj : pyobj) (v : Z) : M unit :=
  match obj with
  | PyNone => raise AttributeError
  | PyPin _ => emit (PinValue l v)
  end.

(** [bytearray(x)]: an integer gives that many zero bytes, a list gives
    its elements, each of which has to be a byte. *)
Definition is_byte (x : Z) : bool := (0 <=? x) && (x <? 256).

Definition bytearray (x : pycmd) : M (list Z) :=
  match x with
  | PyInt n =>
      if n <? 0 then raise ValueError else ret (repeat 0 (Z.to_nat n))
  | PyList l =>
      if forallb is_byte l then ret l else raise ValueError
  end.

(** [b[lo:hi]] for [0 <= lo <= hi] *)
Definition slice (b : list Z) (lo hi : Z) : list Z :=
  firstn (Z.to_nat (hi - lo)) (skipn (Z.to_nat lo) b).

(** [range(n)] *)
Definition range (n : nat) : list Z := map Z.of_nat (seq 0 n).

(** ** The methods of class ST7567 *)

Definition _write_data (data : list Z) : M unit :=
  c <- getattr cs ;; pin_value CS c 0 ;;
  emit (PinValue DC 1) ;;
  emit (SpiWrite data) ;;
  c <- getattr cs ;; pin_value CS c 1.

Definition _write_command (cmd : pycmd) : M unit :=
  c <- getattr cs ;; pin_value CS c 0 ;;
  emit (PinValue DC 0) ;;
  bytes <- bytearray cmd ;;
  emit (SpiWrite bytes) ;;
  c <- getattr cs ;; pin_value CS c 1.

Definition reset : M unit :=
  r <- getattr rs ;;
  (if ne_None r then
     r <- getattr rs ;; pin_value RS r 0 ;;
     emit (SleepUs (5 + 1)) ;;
     r <- getattr rs ;; pin_value RS r 1 ;;
     emit (SleepUs (5 + 1))
   else ret tt) ;;
  _write_command (PyInt ST7567_RESET).

Definition init (rotation : Z) (inverse : bool) (contrast regulation_ratio : Z)
  : M unit :=
  let init_commands := [
    ST7567_SET_BOOSTER_START; ST7567_SET_BOOSTER_4X;
    ST7567_BIAS_SELECT_1DIV7;
    (if rotation =? 180 then ST7567_SEG_DIRECTION_REVERSE
     else ST7567_SEG_DIRECTION_NORMAL);
    (if rotation =? 180 then ST7567_COM_DIRECTION_NORMAL
     else ST7567_COM_DIRECTION_REVERSE);
    (if inverse then ST7567_DISPLAY_INVERSE else ST7567_DISPLAY_NORMAL);
    Z.lor ST7567_REGULATION_RATIO (Z.land regulation_ratio 0x07);
    ST7567_SET_EV_START; Z.land contrast 0x3F;
    Z.lor ST7567_POWER_CONTROL 0x04;
    Z.lor ST7567_POWER_CONTROL 0x06;
    Z.lor ST7567_POWER_CONTROL 0x07;
    Z.lor ST7567_SET_START_LINE 0x00;
    ST7567_DISPLAY_ALL_PIXELS_NORMAL;
    ST7567_DISPLAY_ON
  ] in
  _write_command (PyList init_commands).

Definition contrast (c : Z) : M unit :=
  _write_command (PyInt ST7567_SET_EV_START) ;;
  _write_command (PyInt (Z.land c 0x3F)).

Definition invert (inverse : bool) : M unit :=
  if Bool.eqb inverse false then
    _write_command (PyInt ST7567_DISPLAY_NORMAL)
  else
    _write_command (PyInt ST7567_DISPLAY_INVERSE).

Definition rotate (rotation : Z) : M unit :=
  if rotation =? 0 then
    _write_command (PyInt ST7567_SEG_DIRECTION_NORMAL) ;;
    _write_command (PyInt ST7567_COM_DIRECTION_NORMAL) ;;
    modify (set_xoffset 0x00)
  else if rotation =? 180 then
    _write_command (PyInt ST7567_SEG_DIRECTION_REVERSE) ;;
    _write_command (PyInt ST7567_COM_DIRECTION_REVERSE) ;;
    modify (set_xoffset 0x04)
  else ret tt.

Definition sleep (on : bool) : M unit :=
  if on then
    _write_command (PyInt ST7567_DISPLAY_OFF) ;;
    _write_command (PyInt ST7567_DISPLAY_ALL_PIXELS_ON)
  else
    _write_command (PyInt ST7567_DISPLAY_ALL_PIXELS_NORMAL) ;;
    _write_command (PyInt ST7567_DISPLAY_ON).

Definition show : M unit :=
  _write_command (PyList [Z.lor ST7567_SET_START_LINE 0x00]) ;;
  for_each (range 8) (fun page_count =>
    x <- get _xoffset ;;
    _write_command (PyList [Z.lor ST7567_SET_PAGE_ADDRESS page_count;
                            Z.lor ST7567_SET_COL_ADDRESS_MSB 0x00;
                            Z.lor ST7567_SET_COL_ADDRESS_LSB x]) ;;
    b <- get buffer ;;
    _write_data (slice b (128 * page_count) (128 * page_count + 128))).

(** [framebuf.FrameBuffer.fill(c)] on a MONO_VLSB buffer (library code the
    class inherits): every byte becomes all-zeros or all-ones. *)
Definition fill (c : Z) : M unit :=
  modify (fun s =>
    set_buffer (repeat (if c =? 0 then 0x00 else 0xFF) (length (buffer s))) s).

(** [ST7567.__init__] *)
Definition __init__ (cs_arg rs_arg : pyobj) (rotation : Z) (inverse : bool)
    (contrast_arg regulation_ratio : Z) : M unit :=
  modify (set_xoffset (if rotation =? 0 then 0x00 else 0x04)) ;;
  (if ne_None cs_arg then
     modify (set_cs cs_arg) ;; emit (PinInit CS 1)
   else ret tt) ;;
  (if ne_None rs_arg then
     modify (set_rs rs_arg) ;; emit (PinInit RS 0)
   else ret tt) ;;
  modify (set_buffer (repeat 0 (Z.to_nat (128 * 64 / 8)))) ;;
  fill 0 ;;
  reset ;;
  show ;;
  init rotation inverse contrast_arg regulation_ratio ;;
  rotate rotation ;;
  invert inverse.

(** The object before [__init__] has assigned anything. *)
Definition blank : ST7567 := mkST7567 0 None None [].

(** [ST7567(spi, dc, cs, rs, rotation, inverse, contrast, regulation_ratio)] *)
Definition construct (cs_arg rs_arg : pyobj) (rotation : Z) (inverse : bool)
    (contrast_arg regulation_ratio : Z) : outcome ST7567 * list event :=
  match __init__ cs_arg rs_arg rotation inverse contrast_arg regulation_ratio
          blank with
  | (Returned _, s, evs) => (Returned s, evs)
  | (Raised x, _, evs) => (Raised x, evs)
  end.

(** ** What reaches the display

    The controller takes a byte written while the DC line is low as a
    command and a byte written while it is high as display data. *)

Inductive frame : Type :=
| Command (bytes : list Z)
| Data (bytes : list Z).

Fixpoint frames_from (dc : Z) (evs : list event) : list frame :=
  match evs with
  | [] => []
  | PinValue DC v :: evs' => frames_from v evs'
  | SpiWrite bs :: evs' =>
      (if dc =? 0 then Command bs else Data bs) :: frames_from dc evs'
  | _ :: evs' => frames_from dc evs'
  end.

(** The DC line idles low. *)
Definition frames (evs : list event) : list frame := frames_from 0 evs.

(** Every payload handed to [spi.write], in order. *)
Fixpoint spi_writes (evs : list event) : list (list Z) :=
  match evs with
  | [] => []
  | SpiWrite bs :: evs' => bs :: spi_writes evs'
  | _ :: evs' => spi_writes evs'
  end.

(** The command bytes among the frames, in order. *)
Definition command_bytes (fs : list frame) : list Z :=
  flat_map (fun f => match f with Command bs => bs | Data _ => [] end) fs.

(** The data payloads among the frames, in order. *)
Definition data_payloads (fs : list frame) : list (list Z) :=
  flat_map (fun f => match f with Command _ => [] | Data bs => [bs] end) fs.

(** A page write: a command frame that opens with a page-address opcode
    (high nibble 0xB), followed at once by a data frame.  The result lists
    the addressed page with the payload it received. *)
Definition is_page_address (b : Z) : bool :=
  Z.land b 0xF0 =? ST7567_SET_PAGE_ADDRESS.

Fixpoint page_writes (fs : list frame) : list (Z * list Z) :=
  match fs with
  | Command (b :: _) :: ((Data d :: _) as rest) =>
      if is_page_address b
      then (Z.land b 0x0F, d) :: page_writes rest
      else page_writes rest
  | _ :: rest => page_writes rest
  | [] => []
  end.

(** The column-address LSB command of every page: the third byte of a
    command frame that opens with a page-address opcode. *)
Fixpoint column_lsb_commands (fs : list frame) : list Z :=
  match fs with
  | Command [p; _; lsb] :: rest =>
      if is_page_address p
      then lsb :: column_lsb_commands rest
      else column_lsb_commands rest
  | _ :: rest => column_lsb_commands rest
  | [] => []
  end.

(** The byte stream as the controller sees it: command bytes one by one,
    data as blocks. *)
Inductive wire_item : Type :=
| CmdByte (b : Z)
| DataBlock (bytes : list Z).

Definition wire (fs : list frame) : list wire_item :=
  flat_map (fun f => match f with
                     | Command bs => map CmdByte bs
                     | Data bs => [DataBlock bs]
                     end) fs.

(** The events of one command write and of one data write. *)
Definition cmd_events (bytes : list Z) : list event :=
  [PinValue CS 0; PinValue DC 0; SpiWrite bytes; PinValue CS 1].

Definition data_events (bytes : list Z) : list event :=
  [PinValue CS 0; PinValue DC 1; SpiWrite bytes; PinValue CS 1].

(** Whether an attribute holds a pin object. *)
Definition wired (a : option pyobj) : bool :=
  match a with Some (PyPin _) => true | _ => false end.

(** The class invariant of a constructed driver: both optional lines are
    present, the buffer has its 1024 bytes and the column offset is one of
    the two values the code ever stores. *)
Definition wf (s : ST7567) : bool :=
  wired (cs s) && wired (rs s) && (length (buffer s) =? 1024)%nat
  && ((_xoffset s =? 0) || (_xoffset s =? 4)).

(** The column offset the code associates with a rotation. *)
Definition column_offset (rotation : Z) : Z :=
  if rotation =? 0 then 0x00 else 0x04.

(** ** The events each method produces when it runs to its end *)

(** The events of one [show]: the start line once, then page after page
    the three address bytes and the page's slice of the buffer. *)
Definition page_events (s : ST7567) (page_count : Z) : list event :=
  cmd_events [Z.lor ST7567_SET_PAGE_ADDRESS page_count;
              Z.lor ST7567_SET_COL_ADDRESS_MSB 0x00;
              Z.lor ST7567_SET_COL_ADDRESS_LSB (_xoffset s)]
  ++ data_events (slice (buffer s) (128 * page_count) (128 * page_count + 128)).

Definition show_events (s : ST7567) : list event :=
  cmd_events [Z.lor ST7567_SET_START_LINE 0x00]
  ++ flat_map (page_events s) (range 8).

(** The fifteen bytes [init] hands to [_write_command]. *)
Definition init_commands (rotation : Z) (inverse : bool)
    (contrast_arg regulation_ratio : Z) : list Z :=
  [ ST7567_SET_BOOSTER_START; ST7567_SET_BOOSTER_4X;
    ST7567_BIAS_SELECT_1DIV7;
    (if rotation =? 180 then ST7567_SEG_DIRECTION_REVERSE
     else ST7567_SEG_DIRECTION_NORMAL);
    (if rotation =? 180 then ST7567_COM_DIRECTION_NORMAL
     else ST7567_COM_DIRECTION_REVERSE);
    (if inverse then ST7567_DISPLAY_INVERSE else ST7567_DISPLAY_NORMAL);
    Z.lor ST7567_REGULATION_RATIO (Z.land regulation_ratio 0x07);
    ST7567_SET_EV_START; Z.land contrast_arg 0x3F;
    Z.lor ST7567_POWER_CONTROL 0x04;
    Z.lor ST7567_POWER_CONTROL 0x06;
    Z.lor ST7567_POWER_CONTROL 0x07;
    Z.lor ST7567_SET_START_LINE 0x00;
    ST7567_DISPLAY_ALL_PIXELS_NORMAL;
    ST7567_DISPLAY_ON ].

(** [bytearray(n)] for an integer [n]: [n] zero bytes. *)
Definition zeros (n : Z) : list Z := repeat 0 (Z.to_nat n).

(** The electrical reset: line low, wait, line high, wait. *)
Definition reset_toggle : list event :=
  [PinValue RS 0; SleepUs 6; PinValue RS 1; SleepUs 6].

(** ** Sequences of method calls

    What an application may do with a constructed driver: call its methods,
    or draw into the buffer through the inherited [fill]. *)
Inductive call : Type :=
| CallReset
| CallInit (rotation : Z) (inverse : bool) (contrast_arg regulation_ratio : Z)
| CallContrast (c : Z)
| CallInvert (inverse : bool)
| CallRotate (rotation : Z)
| CallSleep (on : bool)
| CallShow
| CallFill (c : Z).

Definition do_call (c : call) : M unit :=
  match c with
  | CallReset => reset
  | CallInit r i c rr => init r i c rr
  | CallContrast c => contrast c
  | CallInvert i => invert i
  | CallRotate r => rotate r
  | CallSleep on => sleep on
  | CallShow => show
  | CallFill c => fill c
  end.

Definition do_calls (calls : list call) : M unit := for_each calls do_call.

(** The rotation the driver was last told to use: the constructor's, or
    that of the latest [rotate] with one of the two supported values. *)
Definition supported (rotation : Z) : bool :=
  (rotation =? 0) || (rotation =? 180).

Fixpoint last_rotation (r0 : Z) (calls : list call) : Z :=
  match calls with
  | [] => r0
  | CallRotate r :: rest => last_rotation (if supported r then r else r0) rest
  | _ :: rest => last_rotation r0 rest
  end.

(** The object a successful construction leaves behind. *)
Definition constructed (a b rotation : Z) : ST7567 :=
  mkST7567 (column_offset rotation) (Some (PyPin a)) (Some (PyPin b))
           (repeat 0 1024).

(** What [rotate] writes: the opcode it names goes through
    [bytearray] as an integer, so that many zero bytes go out. *)
Definition rotate_events (rotation : Z) : list event :=
  if rotation =? 0 then
    cmd_events (zeros ST7567_SEG_DIRECTION_NORMAL)
    ++ cmd_events (zeros ST7567_COM_DIRECTION_NORMAL)
  else if rotation =? 180 then
    cmd_events (zeros ST7567_SEG_DIRECTION_REVERSE)
    ++ cmd_events (zeros ST7567_COM_DIRECTION_REVERSE)
  else [].

(** Everything a successful construction does on its collaborators. *)
Definition construct_events (a b rotation : Z) (inverse : bool)
    (c rr : Z) : list event :=
  [PinInit CS 1] ++ [PinInit RS 0]
  ++ (reset_toggle ++ cmd_events (zeros ST7567_RESET))
  ++ show_events (constructed a b rotation)
  ++ cmd_events (init_commands rotation inverse c rr)
  ++ rotate_events rotation
  ++ cmd_events (zeros (if inverse then ST7567_DISPLAY_INVERSE
                        else ST7567_DISPLAY_NORMAL)).

(** The two frames of one page in [show]. *)
Definition page_frames (s : ST7567) (p : Z) : list frame :=
  [ Command [Z.lor 0xB0 p; 0x10; _xoffset s];
    Data (slice (buffer s) (128 * p) (128 * p + 128)) ].

(** ** A driver to evaluate on

    [ST7567(spi, dc, cs=Pin(5), rs=Pin(6))] with the default rotation 0. *)
Definition lcd0 : ST7567 := constructed 5 6 0.

(** ** Statements to compare the code with *)

(** The stream of [show] as the specification words it: for each page a
    start-line command, the page address, the column MSB and LSB, then the
    slice. *)
Definition show_wire_start_line_per_page (s : ST7567) : list wire_item :=
  flat_map (fun p =>
    [ CmdByte (Z.lor ST7567_SET_START_LINE 0x00);
      CmdByte (Z.lor ST7567_SET_PAGE_ADDRESS p);
      CmdByte (Z.lor ST7567_SET_COL_ADDRESS_MSB 0x00);
      CmdByte (Z.lor ST7567_SET_COL_ADDRESS_LSB (_xoffset s));
      DataBlock (slice (buffer s) (128 * p) (128 * p + 128)) ])
    [0; 1; 2; 3; 4; 5; 6; 7].

(** The SEG-direction and COM-direction opcodes among command bytes. *)
Definition is_direction (b : Z) : bool :=
  (b =? ST7567_SEG_DIRECTION_NORMAL) || (b =? ST7567_SEG_DIRECTION_REVERSE)
  || (b =? ST7567_COM_DIRECTION_NORMAL) || (b =? ST7567_COM_DIRECTION_REVERSE).

Definition direction_bytes (fs : list frame) : list Z :=
  filter is_direction (command_bytes fs).

(** A computation that stops with [AttributeError] before any payload
    was handed to [spi.write]. *)
Definition fails_before_bus {A} (m : M A) (s : ST7567) : Prop :=
  exists s' evs, m s = (Raised AttributeError, s', evs) /\ spi_writes evs = [].

(** ** Traces of call sequences *)

(** The four events of the bus transaction that carries a frame. *)
Definition frame_events (f : frame) : list event :=
  match f with
  | Command l => cmd_events l
  | Data d => data_events d
  end.

(** The frames a call puts on the bus when it runs to its end. *)
Definition call_frames (s : ST7567) (c : call) : list frame :=
  match c with
  | CallReset => [Command (zeros ST7567_RESET)]
  | CallInit r i c rr => [Command (init_commands r i c rr)]
  | CallContrast c =>
      [Command (zeros ST7567_SET_EV_START); Command (zeros (Z.land c 0x3F))]
  | CallInvert i =>
      [Command (zeros (if i then ST7567_DISPLAY_INVERSE
                       else ST7567_DISPLAY_NORMAL))]
  | CallRotate r =>
      if r =? 0 then
        [Command (zeros ST7567_SEG_DIRECTION_NORMAL);
         Command (zeros ST7567_COM_DIRECTION_NORMAL)]
      else if r =? 180 then
        [Command (zeros ST7567_SEG_DIRECTION_REVERSE);
         Command (zeros ST7567_COM_DIRECTION_REVERSE)]
      else []
  | CallSleep on =>
      if on then
        [Command (zeros ST7567_DISPLAY_OFF);
         Command (zeros ST7567_DISPLAY_ALL_PIXELS_ON)]
      else
        [Command (zeros ST7567_DISPLAY_ALL_PIXELS_NORMAL);
         Command (zeros ST7567_DISPLAY_ON)]
  | CallShow => Command [0x40] :: flat_map (page_frames s) (range 8)
  | CallFill _ => []
  end.

(** Its events: [reset] toggles the reset line first. *)
Definition call_events (s : ST7567) (c : call) : list event :=
  (match c with CallReset => reset_toggle | _ => [] end)
  ++ flat_map frame_events (call_frames s c).

(** The object it leaves behind. *)
Definition call_state (c : call) (s : ST7567) : ST7567 :=
  match c with
  | CallRotate r =>
      if r =? 0 then set_xoffset 0x00 s
      else if r =? 180 then set_xoffset 0x04 s
      else s
  | CallFill c =>
      set_buffer (repeat (if c =? 0 then 0x00 else 0xFF) (length (buffer s))) s
  | _ => s
  end.

Fixpoint calls_state (calls : list call) (s : ST7567) : ST7567 :=
  match calls with
  | [] => s
  | c :: rest => calls_state rest (call_state c s)
  end.

Fixpoint calls_events (s : ST7567) (calls : list call) : list event :=
  match calls with
  | [] => []
  | c :: rest => call_events s c ++ calls_events (call_state c s) rest
  end.

Fixpoint calls_frames (s : ST7567) (calls : list call) : list frame :=
  match calls with
  | [] => []
  | c :: rest => call_frames s c ++ calls_frames (call_state c s) rest
  end.

(** Kinds of calls. *)
Definition is_show (c : call) : bool :=
  match c with CallShow => true | _ => false end.

Definition is_fill (c : call) : bool :=
  match c with CallFill _ => true | _ => false end.

Definition is_rotate (c : call) : bool :=
  match c with CallRotate _ => true | _ => false end.

(** The methods that hand a bare integer to [_write_command]. *)
Definition passes_int (c : call) : bool :=
  match c with
  | CallReset | CallContrast _ | CallInvert _ | CallRotate _ | CallSleep _ =>
      true
  | _ => false
  end.

(** ** Line discipline, checked along a trace *)

(** The chip-select protocol.  The state says whether the controller is
    selected and whether the DC line was driven since it was selected; a
    write outside such a window is a violation ([None]). *)
Definition bus_step (st : option (bool * bool)) (ev : event)
  : option (bool * bool) :=
  match st with
  | None => None
  | Some (selected, dc_driven) =>
      match ev with
      | PinInit CS v | PinValue CS v => Some (v =? 0, false)
      | PinValue DC _ => Some (selected, true)
      | SpiWrite _ =>
          if selected && dc_driven then Some (selected, dc_driven) else None
      | _ => Some (selected, dc_driven)
      end
  end.

(** The reset line.  The state is the level last driven and the
    microseconds slept since; raising the line 5 us or less after it went
    low, or writing to the bus while it is low or 5 us or less after it
    changed, is a violation ([None]). *)
Definition rs_step (st : option (Z * Z)) (ev : event) : option (Z * Z) :=
  match st with
  | None => None
  | Some (level, t) =>
      match ev with
      | PinInit RS v | PinValue RS v =>
          if (level =? 0) && negb (v =? 0) && (t <=? 5) then None
          else Some (v, 0)
      | SleepUs n => Some (level, t + n)
      | SpiWrite _ =>
          if (level =? 0) || (t <=? 5) then None else Some (level, t)
      | _ => Some (level, t)
      end
  end.

(** ** Running the monad *)

Lemma bind_returned {A B} (m : M A) (k : A -> M B) s a s1 e1 :
  m s = (Returned a, s1, e1) ->
  bind m k s = (let '(r, s2, e2) := k a s1 in (r, s2, e1 ++ e2)).
Proof. intros H. unfold bind. rewrite H. reflexivity. Qed.

Lemma bind_raised {A B} (m : M A) (k : A -> M B) s x s1 e1 :
  m s = (Raised x, s1, e1) ->
  bind m k s = (Raised x, s1, e1).
Proof. intros H. unfold bind. rewrite H. reflexivity. Qed.

Lemma bind_unit_same {B} (m : M unit) (k : unit -> M B) s e1 :
  m s = (Returned tt, s, e1) ->
  bind m k s = (let '(r, s2, e2) := k tt s in (r, s2, e1 ++ e2)).
Proof. apply bind_returned. Qed.

Lemma wired_inv a : wired a = true -> exists g, a = Some (PyPin g).
Proof.
  destruct a as [[|g]|]; simpl; try discriminate. intros _. now exists g.
Qed.

(** ** The two bus primitives *)

Lemma write_command_list s l :
  wired (cs s) = true -> forallb is_byte l = true ->
  _write_command (PyList l) s = (Returned tt, s, cmd_events l).
Proof.
  intros Hw Hb. destruct s as [x [[|g]|] r b]; try discriminate Hw.
  unfold _write_command, bytearray. rewrite Hb. reflexivity.
Qed.

Lemma write_command_int s n :
  wired (cs s) = true -> 0 <= n ->
  _write_command (PyInt n) s
  = (Returned tt, s, cmd_events (repeat 0 (Z.to_nat n))).
Proof.
  intros Hw Hn. destruct s as [x [[|g]|] r b]; try discriminate Hw.
  unfold _write_command, bytearray.
  destruct (n <? 0) eqn:E; [apply Z.ltb_lt in E; lia|]. reflexivity.
Qed.

Lemma write_data_run s d :
  wired (cs s) = true ->
  _write_data d s = (Returned tt, s, data_events d).
Proof.
  intros Hw. destruct s as [x [[|g]|] r b]; try discriminate Hw.
  reflexivity.
Qed.

(** Without a usable [cs] attribute both primitives stop at their first
    statement. *)
Lemma write_command_unwired s c :
  wired (cs s) = false ->
  _write_command c s = (Raised AttributeError, s, []).
Proof.
  intros Hw. destruct s as [x [[|g]|] r b]; try discriminate Hw;
    reflexivity.
Qed.

Lemma write_data_unwired s d :
  wired (cs s) = false ->
  _write_data d s = (Raised AttributeError, s, []).
Proof.
  intros Hw. destruct s as [x [[|g]|] r b]; try discriminate Hw;
    reflexivity.
Qed.

(** A loop whose body returns and leaves the object alone. *)
Lemma for_each_same {A} (xs : list A) (body : A -> M unit)
    (ev : A -> list event) s :
  (forall x, In x xs -> body x s = (Returned tt, s, ev x)) ->
  for_each xs body s = (Returned tt, s, flat_map ev xs).
Proof.
  induction xs as [|x xs IH]; intros H; simpl.
  - reflexivity.
  - rewrite (bind_unit_same _ _ _ (ev x)) by (apply H; now left).
    rewrite IH by (intros y Hy; apply H; now right). reflexivity.
Qed.

(** ** What each method does on a driver whose [cs] line is present *)

Lemma page_bytes_ok x p :
  is_byte x = true -> In p (range 8) ->
  forallb is_byte [Z.lor ST7567_SET_PAGE_ADDRESS p;
                   Z.lor ST7567_SET_COL_ADDRESS_MSB 0x00;
                   Z.lor ST7567_SET_COL_ADDRESS_LSB x] = true.
Proof.
  intros Hx Hp. unfold ST7567_SET_COL_ADDRESS_LSB. rewrite Z.lor_0_l.
  simpl in Hp.
  repeat (destruct Hp as [Hp|Hp]; [subst p; simpl; now rewrite Hx|]).
  contradiction.
Qed.

Lemma show_run s :
  wired (cs s) = true -> is_byte (_xoffset s) = true ->
  show s = (Returned tt, s, show_events s).
Proof.
  intros Hw Hx. unfold show, show_events.
  rewrite (bind_unit_same _ _ _ (cmd_events [Z.lor ST7567_SET_START_LINE 0]))
    by (now apply write_command_list).
  rewrite (for_each_same _ _ (page_events s)); [reflexivity|].
  intros p Hp.
  rewrite (bind_returned _ _ s (_xoffset s) s []) by reflexivity.
  rewrite (bind_unit_same _ _ _
             (cmd_events [Z.lor ST7567_SET_PAGE_ADDRESS p;
                          Z.lor ST7567_SET_COL_ADDRESS_MSB 0x00;
                          Z.lor ST7567_SET_COL_ADDRESS_LSB (_xoffset s)]))
    by (apply write_command_list; [assumption | now apply page_bytes_ok]).
  rewrite (bind_returned _ _ s (buffer s) s []) by reflexivity.
  rewrite write_data_run by assumption. reflexivity.
Qed.

Lemma init_unfold rotation inverse c rr :
  init rotation inverse c rr
  = _write_command (PyList (init_commands rotation inverse c rr)).
Proof. reflexivity. Qed.

(** Masking to the register width: Python's [&] on unbounded integers is
    [Z.land], also for negative inputs. *)
Lemma land_3F_range c : 0 <= Z.land c 0x3F < 64.
Proof.
  change 0x3F with (Z.ones 6). rewrite Z.land_ones by lia.
  change (2 ^ 6) with 64. apply Z.mod_pos_bound. lia.
Qed.

Lemma land_07_range r : 0 <= Z.land r 0x07 < 8.
Proof.
  change 0x07 with (Z.ones 3). rewrite Z.land_ones by lia.
  change (2 ^ 3) with 8. apply Z.mod_pos_bound. lia.
Qed.

Lemma lor_ratio r : 0 <= r < 8 -> Z.lor ST7567_REGULATION_RATIO r = 32 + r.
Proof.
  intros H. unfold ST7567_REGULATION_RATIO.
  assert (r = 0 \/ r = 1 \/ r = 2 \/ r = 3 \/ r = 4 \/ r = 5 \/ r = 6 \/ r = 7)
    as D by lia.
  repeat (destruct D as [D|D]; [subst r; reflexivity|]). subst r. reflexivity.
Qed.

Lemma is_byte_iff x : is_byte x = true <-> 0 <= x < 256.
Proof.
  unfold is_byte. rewrite andb_true_iff, Z.leb_le, Z.ltb_lt. tauto.
Qed.

Lemma init_commands_bytes rotation inverse c rr :
  forallb is_byte (init_commands rotation inverse c rr) = true.
Proof.
  pose proof (land_3F_range c) as Hc. pose proof (land_07_range rr) as Hr.
  unfold init_commands. rewrite (lor_ratio _ Hr).
  apply forallb_forall. intros x Hx. apply is_byte_iff.
  cbv [ST7567_SET_BOOSTER_START ST7567_SET_BOOSTER_4X ST7567_BIAS_SELECT_1DIV7
       ST7567_SEG_DIRECTION_REVERSE ST7567_SEG_DIRECTION_NORMAL
       ST7567_COM_DIRECTION_NORMAL ST7567_COM_DIRECTION_REVERSE
       ST7567_DISPLAY_INVERSE ST7567_DISPLAY_NORMAL ST7567_SET_EV_START
       ST7567_POWER_CONTROL ST7567_SET_START_LINE
       ST7567_DISPLAY_ALL_PIXELS_NORMAL ST7567_DISPLAY_ON] in Hx.
  change (Z.lor 0x28 0x04) with 0x2C in Hx.
  change (Z.lor 0x28 0x06) with 0x2E in Hx.
  change (Z.lor 0x28 0x07) with 0x2F in Hx.
  change (Z.lor 0x40 0x00) with 0x40 in Hx.
  destruct (rotation =? 180), inverse; cbv [In] in Hx;
    repeat (destruct Hx as [Hx|Hx]; [subst x; lia|]);
    contradiction.
Qed.

Lemma init_run s rotation inverse c rr :
  wired (cs s) = true ->
  init rotation inverse c rr s
  = (Returned tt, s, cmd_events (init_commands rotation inverse c rr)).
Proof.
  intros Hw. rewrite init_unfold.
  apply write_command_list; [assumption | apply init_commands_bytes].
Qed.

Lemma write_command_const s n :
  wired (cs s) = true -> 0 <= n ->
  _write_command (PyInt n) s = (Returned tt, s, cmd_events (zeros n)).
Proof. apply write_command_int. Qed.

Ltac run_write :=
  match goal with
  | |- context [bind (_write_command (PyInt ?n)) ?k ?s] =>
      rewrite (bind_unit_same (_write_command (PyInt n)) k s
                 (cmd_events (zeros n)))
        by (apply write_command_const; [assumption | discriminate])
  | |- context [_write_command (PyInt ?n) ?s] =>
      rewrite (write_command_const s n) by (assumption || discriminate)
  end.

Lemma contrast_run s c :
  wired (cs s) = true ->
  contrast c s
  = (Returned tt, s,
     cmd_events (zeros ST7567_SET_EV_START)
     ++ cmd_events (zeros (Z.land c 0x3F))).
Proof.
  intros Hw. unfold contrast.
  rewrite (bind_unit_same _ _ s (cmd_events (zeros ST7567_SET_EV_START)))
    by (apply write_command_const; [assumption | discriminate]).
  rewrite write_command_const
    by (assumption || apply (land_3F_range c)).
  reflexivity.
Qed.

Lemma invert_run s inverse :
  wired (cs s) = true ->
  invert inverse s
  = (Returned tt, s,
     cmd_events (zeros (if inverse then ST7567_DISPLAY_INVERSE
                        else ST7567_DISPLAY_NORMAL))).
Proof.
  intros Hw. unfold invert. destruct inverse; simpl Bool.eqb; cbv iota;
    apply write_command_const; (assumption || discriminate).
Qed.

Lemma sleep_run s on :
  wired (cs s) = true ->
  sleep on s
  = (Returned tt, s,
     if on
     then cmd_events (zeros ST7567_DISPLAY_OFF)
          ++ cmd_events (zeros ST7567_DISPLAY_ALL_PIXELS_ON)
     else cmd_events (zeros ST7567_DISPLAY_ALL_PIXELS_NORMAL)
          ++ cmd_events (zeros ST7567_DISPLAY_ON)).
Proof.
  intros Hw. unfold sleep. destruct on; repeat run_write; reflexivity.
Qed.

Lemma rotate_0_run s :
  wired (cs s) = true ->
  rotate 0 s
  = (Returned tt, set_xoffset 0x00 s,
     cmd_events (zeros ST7567_SEG_DIRECTION_NORMAL)
     ++ cmd_events (zeros ST7567_COM_DIRECTION_NORMAL)).
Proof.
  intros Hw. unfold rotate. change (0 =? 0) with true. cbv iota.
  repeat run_write. reflexivity.
Qed.

Lemma rotate_180_run s :
  wired (cs s) = true ->
  rotate 180 s
  = (Returned tt, set_xoffset 0x04 s,
     cmd_events (zeros ST7567_SEG_DIRECTION_REVERSE)
     ++ cmd_events (zeros ST7567_COM_DIRECTION_REVERSE)).
Proof.
  intros Hw. unfold rotate.
  change (180 =? 0) with false. change (180 =? 180) with true. cbv iota.
  repeat run_write. reflexivity.
Qed.

Lemma rotate_other_run s rotation :
  rotation <> 0 -> rotation <> 180 ->
  rotate rotation s = (Returned tt, s, []).
Proof.
  intros H0 H180. unfold rotate.
  destruct (rotation =? 0) eqn:E0; [apply Z.eqb_eq in E0; contradiction|].
  destruct (rotation =? 180) eqn:E1; [apply Z.eqb_eq in E1; contradiction|].
  reflexivity.
Qed.

Lemma reset_run s :
  wired (cs s) = true -> wired (rs s) = true ->
  reset s = (Returned tt, s, reset_toggle ++ cmd_events (zeros ST7567_RESET)).
Proof.
  intros Hc Hr. unfold reset.
  destruct s as [x c [[|g]|] b]; try discriminate Hr.
  rewrite (bind_returned _ _ _ (PyPin g) (mkST7567 x c (Some (PyPin g)) b) [])
    by reflexivity.
  rewrite (bind_unit_same _ _ _ reset_toggle) by reflexivity.
  run_write. reflexivity.
Qed.

(** ** The class invariant *)

Lemma wf_inv s :
  wf s = true ->
  wired (cs s) = true /\ wired (rs s) = true /\ length (buffer s) = 1024%nat
  /\ (_xoffset s = 0 \/ _xoffset s = 4).
Proof.
  unfold wf. rewrite !andb_true_iff, orb_true_iff, Nat.eqb_eq, !Z.eqb_eq.
  tauto.
Qed.

Lemma wf_intro s :
  wired (cs s) = true -> wired (rs s) = true -> length (buffer s) = 1024%nat ->
  (_xoffset s = 0 \/ _xoffset s = 4) -> wf s = true.
Proof.
  intros. unfold wf.
  rewrite !andb_true_iff, orb_true_iff, Nat.eqb_eq, !Z.eqb_eq. tauto.
Qed.

Lemma wf_xoffset_byte s : wf s = true -> is_byte (_xoffset s) = true.
Proof.
  intros H. apply wf_inv in H. destruct H as (_ & _ & _ & [E|E]);
    rewrite E; reflexivity.
Qed.

Lemma wf_cs s : wf s = true -> wired (cs s) = true.
Proof. intros H. now apply wf_inv in H. Qed.

Lemma wf_set_xoffset s x :
  wf s = true -> x = 0 \/ x = 4 -> wf (set_xoffset x s) = true.
Proof.
  intros H Hx. apply wf_inv in H. destruct H as (Hc & Hr & Hb & _).
  now apply wf_intro.
Qed.

(** ** Sequences of method calls on a constructed driver *)

(** One call on a well-formed driver returns, keeps the invariant and
    touches the column offset only in [rotate]. *)
Lemma do_call_run s c :
  wf s = true ->
  exists s' evs,
    do_call c s = (Returned tt, s', evs) /\ wf s' = true /\
    _xoffset s' =
      match c with
      | CallRotate r => if supported r then column_offset r else _xoffset s
      | _ => _xoffset s
      end.
Proof.
  intros H. pose proof (wf_cs _ H) as Hc.
  destruct c as [|r i c rr|c|i|r|on| |c]; simpl do_call.
  - apply wf_inv in H as H'. destruct H' as (_ & Hr & _).
    eexists _, _. split; [now apply reset_run|now split].
  - eexists _, _. split; [now apply init_run|now split].
  - eexists _, _. split; [now apply contrast_run|now split].
  - eexists _, _. split; [now apply invert_run|now split].
  - destruct (Z.eq_dec r 0) as [->|N0]; [|destruct (Z.eq_dec r 180) as [->|N1]].
    + eexists _, _. split; [now apply rotate_0_run|]. split; [|reflexivity].
      apply wf_set_xoffset; [assumption|now left].
    + eexists _, _. split; [now apply rotate_180_run|]. split; [|reflexivity].
      apply wf_set_xoffset; [assumption|now right].
    + eexists _, _. split; [now apply rotate_other_run|]. split; [assumption|].
      unfold supported.
      destruct (r =? 0) eqn:E0; [apply Z.eqb_eq in E0; contradiction|].
      destruct (r =? 180) eqn:E1; [apply Z.eqb_eq in E1; contradiction|].
      reflexivity.
  - eexists _, _. split; [now apply sleep_run|now split].
  - eexists _, _. split; [apply show_run; [assumption|now apply wf_xoffset_byte]|].
    now split.
  - eexists _, _. split; [reflexivity|]. split; [|reflexivity].
    apply wf_inv in H. destruct H as (Hc' & Hr & Hb & Hx).
    apply wf_intro; try assumption. simpl. now rewrite repeat_length.
Qed.

Lemma supported_inv r : supported r = true -> r = 0 \/ r = 180.
Proof.
  unfold supported. rewrite orb_true_iff, !Z.eqb_eq. tauto.
Qed.

Lemma do_calls_run calls : forall s r,
  wf s = true -> supported r = true -> _xoffset s = column_offset r ->
  exists s' evs,
    do_calls calls s = (Returned tt, s', evs) /\ wf s' = true /\
    supported (last_rotation r calls) = true /\
    _xoffset s' = column_offset (last_rotation r calls).
Proof.
  induction calls as [|c calls IH]; intros s r Hwf Hr Hx.
  - exists s, []. now repeat split.
  - destruct (do_call_run s c Hwf) as (s1 & e1 & Hrun & Hwf1 & Hx1).
    assert (exists r1, last_rotation r (c :: calls) = last_rotation r1 calls
                       /\ supported r1 = true
                       /\ _xoffset s1 = column_offset r1) as (r1 & El & Hr1 & Hx1').
    { destruct c; try (exists r; simpl; repeat split; congruence).
      simpl. destruct (supported rotation) eqn:Es.
      - exists rotation. now repeat split.
      - exists r. repeat split; congruence. }
    destruct (IH s1 r1 Hwf1 Hr1 Hx1') as (s2 & e2 & Hrun2 & Hwf2 & Hs2 & Hx2).
    exists s2, (e1 ++ e2). rewrite El. repeat split; try assumption.
    unfold do_calls. simpl.
    rewrite (bind_returned _ _ s tt s1 e1) by assumption.
    fold (do_calls calls). rewrite Hrun2. reflexivity.
Qed.

(** ** The constructor *)

Lemma bind_run {A B} (m : M A) (k : A -> M B) s a s1 e1 r s2 e2 :
  m s = (Returned a, s1, e1) -> k a s1 = (r, s2, e2) ->
  bind m k s = (r, s2, e1 ++ e2).
Proof. intros H1 H2. unfold bind. rewrite H1, H2. reflexivity. Qed.

Lemma constructed_wf a b rotation : wf (constructed a b rotation) = true.
Proof. unfold constructed, column_offset. now destruct (rotation =? 0). Qed.

Lemma rotate_constructed a b rotation :
  rotate rotation (constructed a b rotation)
  = (Returned tt, constructed a b rotation, rotate_events rotation).
Proof.
  unfold rotate_events.
  destruct (Z.eq_dec rotation 0) as [->|N0];
    [|destruct (Z.eq_dec rotation 180) as [->|N1]].
  - now rewrite rotate_0_run.
  - now rewrite rotate_180_run.
  - rewrite rotate_other_run by assumption.
    destruct (rotation =? 0) eqn:E0; [apply Z.eqb_eq in E0; contradiction|].
    destruct (rotation =? 180) eqn:E1; [apply Z.eqb_eq in E1; contradiction|].
    reflexivity.
Qed.

Lemma construct_run a b rotation inverse c rr :
  construct (PyPin a) (PyPin b) rotation inverse c rr
  = (Returned (constructed a b rotation),
     construct_events a b rotation inverse c rr).
Proof.
  pose proof (constructed_wf a b rotation) as Hwf.
  pose proof (wf_cs _ Hwf) as Hc.
  assert (exists evs,
            __init__ (PyPin a) (PyPin b) rotation inverse c rr blank
            = (Returned tt, constructed a b rotation, evs)
            /\ evs = construct_events a b rotation inverse c rr)
    as (evs & E & ->).
  { eexists. split.
    - unfold __init__.
      do 5 (eapply bind_run; [reflexivity|]). cbv beta.
      eapply bind_run; [now apply reset_run|].
      eapply bind_run;
        [apply show_run; [assumption | now apply wf_xoffset_byte]|].
      eapply bind_run; [now apply init_run|].
      eapply bind_run; [apply rotate_constructed|].
      now apply invert_run.
    - reflexivity. }
  unfold construct. rewrite E. reflexivity.
Qed.

(** ** Slicing the buffer into pages *)

Lemma firstn_plus {A} (n m : nat) : forall l : list A,
  firstn (n + m) l = firstn n l ++ firstn m (skipn n l).
Proof.
  induction n as [|n IH]; intros l; simpl.
  - reflexivity.
  - destruct l as [|x l]; simpl.
    + now rewrite firstn_nil.
    + now rewrite IH.
Qed.

Lemma concat_chunks {A} (b : list A) (n : nat) : forall k j,
  concat (map (fun i => firstn n (skipn (i * n) b)) (seq j k))
  = firstn (k * n) (skipn (j * n) b).
Proof.
  induction k as [|k IH]; intros j; simpl.
  - reflexivity.
  - rewrite IH, firstn_plus, skipn_skipn. reflexivity.
Qed.

Lemma slice_page b (i : nat) :
  slice b (128 * Z.of_nat i) (128 * Z.of_nat i + 128)
  = firstn 128 (skipn (i * 128) b).
Proof.
  unfold slice.
  replace (Z.to_nat (128 * Z.of_nat i + 128 - 128 * Z.of_nat i))
    with 128%nat by lia.
  replace (Z.to_nat (128 * Z.of_nat i)) with (i * 128)%nat by lia.
  reflexivity.
Qed.

Lemma page_slices_chunks b :
  map (fun p => slice b (128 * p) (128 * p + 128)) (range 8)
  = map (fun i => firstn 128 (skipn (i * 128) b)) (seq 0 8).
Proof.
  unfold range. rewrite map_map. apply map_ext. intros i. apply slice_page.
Qed.

Lemma page_slices_concat b :
  length b = 1024%nat ->
  concat (map (fun p => slice b (128 * p) (128 * p + 128)) (range 8)) = b.
Proof.
  intros H. rewrite page_slices_chunks, concat_chunks.
  change (skipn (0 * 128) b) with b. apply firstn_all2. rewrite H.
  apply Nat.le_refl.
Qed.

Lemma page_slices_length b :
  length b = 1024%nat ->
  Forall (fun d => length d = 128%nat)
         (map (fun p => slice b (128 * p) (128 * p + 128)) (range 8)).
Proof.
  intros H. rewrite page_slices_chunks. apply Forall_map, Forall_forall.
  intros i Hi. apply in_seq in Hi.
  rewrite length_firstn, length_skipn, H. lia.
Qed.

(** ** The frames of one [show] *)

Lemma frames_show_events s :
  frames (show_events s)
  = Command [0x40] :: flat_map (page_frames s) [0; 1; 2; 3; 4; 5; 6; 7].
Proof. reflexivity. Qed.

Lemma page_writes_show_events s :
  page_writes (frames (show_events s))
  = map (fun p => (p, slice (buffer s) (128 * p) (128 * p + 128)))
        [0; 1; 2; 3; 4; 5; 6; 7].
Proof. reflexivity. Qed.

Lemma data_payloads_show_events s :
  data_payloads (frames (show_events s))
  = map (fun p => slice (buffer s) (128 * p) (128 * p + 128)) (range 8).
Proof. reflexivity. Qed.

Lemma column_lsb_show_events s :
  column_lsb_commands (frames (show_events s)) = repeat (_xoffset s) 8.
Proof. reflexivity. Qed.

Lemma wire_show_events s :
  wire (frames (show_events s))
  = CmdByte 0x40
    :: flat_map (fun p =>
         [ CmdByte (Z.lor 0xB0 p); CmdByte 0x10; CmdByte (_xoffset s);
           DataBlock (slice (buffer s) (128 * p) (128 * p + 128)) ])
       [0; 1; 2; 3; 4; 5; 6; 7].
Proof. reflexivity. Qed.

Lemma lcd0_constructed :
  construct (PyPin 5) (PyPin 6) 0 false 0x1F 0x03
  = (Returned lcd0, construct_events 5 6 0 false 0x1F 0x03).
Proof. apply construct_run. Qed.

(** * The properties of the driver *)

(** C1: on every constructed driver, whatever the buffer holds and whichever
    rotation is set, one [show] returns and emits exactly 8 page writes, for
    the pages 0, 1, ..., 7 in this order; the payload of page [p] is the
    buffer slice [128*p, 128*p+128), which has 128 bytes; there is no other
    data payload, and the payloads together are the whole 1024-byte buffer. *)
Theorem C1_show_transmits_every_page (s : ST7567) :
  wf s = true ->
  exists evs,
    show s = (Returned tt, s, evs) /\
    page_writes (frames evs)
    = map (fun p => (p, slice (buffer s) (128 * p) (128 * p + 128)))
          [0; 1; 2; 3; 4; 5; 6; 7] /\
    length (page_writes (frames evs)) = 8%nat /\
    Forall (fun d => length d = 128%nat) (data_payloads (frames evs)) /\
    data_payloads (frames evs) = map snd (page_writes (frames evs)) /\
    concat (data_payloads (frames evs)) = buffer s /\
    length (concat (data_payloads (frames evs))) = 1024%nat.
Proof.
  intros Hwf. pose proof (wf_inv _ Hwf) as (Hc & _ & Hlen & _).
  exists (show_events s).
  split; [apply show_run; [assumption | now apply wf_xoffset_byte]|].
  rewrite page_writes_show_events, data_payloads_show_events.
  split; [reflexivity|]. split; [reflexivity|].
  split; [now apply page_slices_length|]. split; [reflexivity|].
  rewrite page_slices_concat by assumption. now split.
Qed.

Lemma C1_show_transmits_every_page_witness :
  wf lcd0 = true /\
  exists evs, show lcd0 = (Returned tt, lcd0, evs)
              /\ length (page_writes (frames evs)) = 8%nat.
Proof.
  split; [reflexivity|].
  destruct (C1_show_transmits_every_page lcd0 eq_refl)
    as (evs & Hrun & _ & Hn & _).
  exists evs. split; assumption.
Defined.

(** C2: on a driver with its chip-select line, [init] returns after one
    command write of fifteen bytes: booster set 0xF8 0x00, bias select
    0xA3, the SEG direction and the COM direction chosen by the rotation, the
    display polarity chosen by the inverse flag, the regulation ratio, the EV
    opcode 0x81 and the contrast value, power control with booster, then
    regulator, then follower on, start line 0, all-pixels-normal and
    display-on; 0xAF is the last command byte.  This holds for every
    rotation, inverse flag, contrast and regulation ratio. *)
Theorem C2_init_emits_fixed_sequence
    (s : ST7567) (rotation : Z) (inverse : bool) (c rr : Z) :
  wired (cs s) = true ->
  exists evs,
    init rotation inverse c rr s = (Returned tt, s, evs) /\
    frames evs =
      [ Command [ 0xF8; 0x00;
                  0xA3;
                  (if rotation =? 180 then 0xA1 else 0xA0);
                  (if rotation =? 180 then 0xC0 else 0xC8);
                  (if inverse then 0xA7 else 0xA6);
                  Z.lor 0x20 (Z.land rr 0x07);
                  0x81; Z.land c 0x3F;
                  0x2C; 0x2E; 0x2F;
                  0x40;
                  0xA4;
                  0xAF ] ] /\
    last (command_bytes (frames evs)) 0 = 0xAF.
Proof.
  intros Hc. exists (cmd_events (init_commands rotation inverse c rr)).
  split; [now apply init_run|]. split; reflexivity.
Qed.

Lemma C2_init_emits_fixed_sequence_witness :
  wired (cs lcd0) = true /\
  exists evs, init 180 true 0x1F 0x03 lcd0 = (Returned tt, lcd0, evs)
              /\ last (command_bytes (frames evs)) 0 = 0xAF.
Proof.
  split; [reflexivity|].
  destruct (C2_init_emits_fixed_sequence lcd0 180 true 0x1F 0x03 eq_refl)
    as (evs & Hrun & _ & Hlast).
  exists evs. split; assumption.
Defined.

(** C3: construct the driver with rotation 0 or 180 and then make any
    sequence of method calls.  The stored column offset is 0 when the
    rotation was 0 and 0x04 when it was 180, right after construction and
    after the calls, where the rotation in force is the one of the latest
    [rotate] with a supported value (the constructor's if there is none);
    and the [show] that follows puts that offset in the column-address LSB
    command of each of its eight pages. *)
Theorem C3_column_offset_follows_rotation
    (a b r0 : Z) (inverse : bool) (c rr : Z) (calls : list call) :
  r0 = 0 \/ r0 = 180 ->
  exists s0 e0 s1 e1 e2,
    construct (PyPin a) (PyPin b) r0 inverse c rr = (Returned s0, e0) /\
    (r0 = 0 -> _xoffset s0 = 0) /\
    (r0 = 180 -> _xoffset s0 = 0x04) /\
    do_calls calls s0 = (Returned tt, s1, e1) /\
    (last_rotation r0 calls = 0 \/ last_rotation r0 calls = 180) /\
    (last_rotation r0 calls = 0 -> _xoffset s1 = 0) /\
    (last_rotation r0 calls = 180 -> _xoffset s1 = 0x04) /\
    show s1 = (Returned tt, s1, e2) /\
    column_lsb_commands (frames e2)
    = repeat (Z.lor ST7567_SET_COL_ADDRESS_LSB
                    (if last_rotation r0 calls =? 0 then 0 else 0x04)) 8.
Proof.
  intros Hr0.
  assert (supported r0 = true) as Hs0
    by (destruct Hr0 as [->| ->]; reflexivity).
  destruct (do_calls_run calls (constructed a b r0) r0
              (constructed_wf a b r0) Hs0 eq_refl)
    as (s1 & e1 & Hrun & Hwf1 & Hs1 & Hx1).
  exists (constructed a b r0), (construct_events a b r0 inverse c rr),
         s1, e1, (show_events s1).
  split; [apply construct_run|].
  split; [intros ->; reflexivity|]. split; [intros ->; reflexivity|].
  split; [assumption|]. split; [now apply supported_inv|].
  split; [intros E; rewrite Hx1, E; reflexivity|].
  split; [intros E; rewrite Hx1, E; reflexivity|].
  split; [apply show_run; [now apply wf_cs | now apply wf_xoffset_byte]|].
  rewrite column_lsb_show_events, Hx1. reflexivity.
Qed.

Lemma C3_column_offset_follows_rotation_witness :
  (180 = 0 \/ 180 = 180) /\
  exists s1 e1,
    do_calls [CallRotate 0; CallSleep true; CallRotate 180; CallShow]
             (constructed 5 6 180) = (Returned tt, s1, e1)
    /\ _xoffset s1 = 0x04.
Proof.
  split; [right; reflexivity|].
  destruct (C3_column_offset_follows_rotation 5 6 180 false 0x1F 0x03
              [CallRotate 0; CallSleep true; CallRotate 180; CallShow]
              (or_intror eq_refl))
    as (s0 & e0 & s1 & e1 & e2 & Hc & _ & _ & Hrun & _ & _ & Hx & _).
  exists s1, e1. split.
  - rewrite construct_run in Hc. injection Hc as <- _. exact Hrun.
  - apply Hx. reflexivity.
Defined.

(** C4, as the code has it: [rotate] with a value other than 0 and 180
    returns normally, raises nothing, emits no event at all (so no command
    byte) and leaves every attribute, the column offset included, as it
    was.  This holds whether or not the control lines are present. *)
Theorem C4_rotate_ignores_unsupported_rotation (s : ST7567) (rotation : Z) :
  rotation <> 0 -> rotation <> 180 ->
  rotate rotation s = (Returned tt, s, []).
Proof. apply rotate_other_run. Qed.

Lemma C4_rotate_ignores_unsupported_rotation_witness :
  90 <> 0 /\ 90 <> 180 /\ rotate 90 lcd0 = (Returned tt, lcd0, []).
Proof.
  split; [lia|]. split; [lia|].
  apply (C4_rotate_ignores_unsupported_rotation lcd0 90); lia.
Defined.

(** C4 as stated fails: [rotate(90)] on a constructed driver raises no
    exception of any kind; it returns. *)
Lemma C4_rotate_90_raises_nothing :
  rotate 90 lcd0 = (Returned tt, lcd0, [])
  /\ ~ (exists (e : exn) (s' : ST7567) (evs : list event),
          rotate 90 lcd0 = (Raised e, s', evs)).
Proof.
  assert (rotate 90 lcd0 = (Returned tt, lcd0, [])) as E by reflexivity.
  split; [exact E|].
  intros (e & s' & evs & H). rewrite E in H. discriminate H.
Qed.

(** ** Construction without a reset line *)

(** [reset] reads [self.rs] before anything else; [__init__] assigns the
    attribute only when the argument is not [None]. *)
Lemma construct_without_rs a rotation inverse c rr :
  construct (PyPin a) PyNone rotation inverse c rr
  = (Raised AttributeError, [PinInit CS 1]).
Proof. reflexivity. Qed.

(** C5: the construction [ST7567(spi, dc, cs=Pin(5), rs=None)] does not
    succeed.  It raises [AttributeError] from [reset], at the read of the
    never-assigned attribute [rs]; the only call made on a collaborator is
    the set-up of the chip-select pin, and nothing is written to the bus, so
    the software reset byte 0xE2 is not issued. *)
Theorem C5_construct_without_reset_line_raises :
  construct (PyPin 5) PyNone 0 false 0x1F 0x03
  = (Raised AttributeError, [PinInit CS 1])
  /\ spi_writes [PinInit CS 1] = [].
Proof. split; reflexivity. Qed.

(** With both lines present [reset] does reach the bus, but what it writes
    is [bytearray(0xE2)]: 226 zero bytes, not the byte 0xE2. *)
Lemma reset_writes_zero_bytes :
  exists evs, reset lcd0 = (Returned tt, lcd0, evs)
              /\ spi_writes evs = [repeat 0 226]
              /\ ~ In ST7567_RESET (command_bytes (frames evs)).
Proof.
  exists (reset_toggle ++ cmd_events (zeros ST7567_RESET)).
  split; [now apply reset_run|]. split; [reflexivity|].
  assert (command_bytes
            (frames (reset_toggle ++ cmd_events (zeros ST7567_RESET)))
          = repeat 0 226) as E by reflexivity.
  rewrite E. intros H. apply repeat_spec in H. discriminate H.
Qed.

(** C6: [contrast(0x1F)] on a constructed driver writes two command frames,
    129 zero bytes and then 31 zero bytes: [bytearray] of an integer is a
    zero-filled array of that length.  Neither the EV opcode 0x81 nor the
    value 0x1F reaches the bus, while [init] with the same contrast sends
    both, the opcode first. *)
Theorem C6_contrast_writes_zero_bytes :
  exists evs,
    contrast 0x1F lcd0 = (Returned tt, lcd0, evs) /\
    frames evs = [Command (repeat 0 129); Command (repeat 0 31)] /\
    ~ In 0x81 (command_bytes (frames evs)) /\
    ~ In 0x1F (command_bytes (frames evs)) /\
    exists evs',
      init 0 false 0x1F 0x03 lcd0 = (Returned tt, lcd0, evs') /\
      firstn 2 (skipn 7 (command_bytes (frames evs'))) = [0x81; 0x1F].
Proof.
  exists (cmd_events (zeros ST7567_SET_EV_START)
          ++ cmd_events (zeros (Z.land 0x1F 0x3F))).
  split; [now apply contrast_run|]. split; [reflexivity|].
  assert (command_bytes
            (frames (cmd_events (zeros ST7567_SET_EV_START)
                     ++ cmd_events (zeros (Z.land 0x1F 0x3F))))
          = repeat 0 160) as E by reflexivity.
  rewrite E.
  split; [intros H; apply repeat_spec in H; discriminate H|].
  split; [intros H; apply repeat_spec in H; discriminate H|].
  exists (cmd_events (init_commands 0 false 0x1F 0x03)).
  split; [now apply init_run|reflexivity].
Qed.

(** For every input the runtime operation writes zero bytes only: as many
    as the opcode's numeric value, then as many as the masked value. *)
Lemma contrast_frames s c :
  wired (cs s) = true ->
  exists evs,
    contrast c s = (Returned tt, s, evs) /\
    frames evs = [ Command (repeat 0 129);
                   Command (repeat 0 (Z.to_nat (Z.land c 0x3F))) ].
Proof.
  intros Hc. eexists. split; [now apply contrast_run|reflexivity].
Qed.

(** ** Sleeping and waking *)

(** Neither [sleep(True)] nor [sleep(False)] changes the object, so the
    [show] after a sleep cycle emits what a [show] alone emits. *)
Lemma sleep_cycle_then_show s :
  wf s = true ->
  exists e_sleep e_wake,
    sleep true s = (Returned tt, s, e_sleep) /\
    sleep false s = (Returned tt, s, e_wake) /\
    show s = (Returned tt, s, show_events s) /\
    (sleep true ;; sleep false ;; show) s
    = (Returned tt, s, e_sleep ++ e_wake ++ show_events s).
Proof.
  intros Hwf. pose proof (wf_cs _ Hwf) as Hc.
  pose proof (show_run s Hc (wf_xoffset_byte _ Hwf)) as Hshow.
  eexists _, _. split; [now apply sleep_run|]. split; [now apply sleep_run|].
  split; [assumption|].
  eapply bind_run; [now apply sleep_run|].
  eapply bind_run; [now apply sleep_run|]. exact Hshow.
Qed.

(** C7: on a constructed driver [sleep(True)] writes 174 zero bytes and
    then 165 zero bytes, and [sleep(False)] writes 164 zero bytes and then
    175 zero bytes.  None of the opcodes 0xAE, 0xA5, 0xA4, 0xAF reaches the
    bus: the integers were given to [bytearray] as lengths. *)
Theorem C7_sleep_writes_zero_bytes :
  exists e_sleep e_wake,
    sleep true lcd0 = (Returned tt, lcd0, e_sleep) /\
    sleep false lcd0 = (Returned tt, lcd0, e_wake) /\
    frames e_sleep = [Command (repeat 0 174); Command (repeat 0 165)] /\
    frames e_wake = [Command (repeat 0 164); Command (repeat 0 175)] /\
    command_bytes (frames e_sleep) <> [0xAE; 0xA5] /\
    command_bytes (frames e_wake) <> [0xA4; 0xAF].
Proof.
  eexists _, _. split; [now apply sleep_run|]. split; [now apply sleep_run|].
  split; [reflexivity|]. split; [reflexivity|].
  split; intros H; apply (f_equal (fun l => hd 1 l)) in H; discriminate H.
Qed.

(** ** The per-page sequence of [show] *)

(** C8, as the code has it: one [show] on a constructed driver emits the
    start-line command 0x40 once, before the first page, and then for each
    page 0, 1, ..., 7 in this order the page-address command for that page,
    the column MSB command 0x10, the column LSB command carrying the stored
    offset, and that page's buffer slice as data.  The three address bytes
    of a page travel in one command write. *)
Theorem C8_show_sequence (s : ST7567) :
  wf s = true ->
  exists evs,
    show s = (Returned tt, s, evs) /\
    frames evs
    = Command [0x40]
      :: flat_map (fun p =>
           [ Command [Z.lor 0xB0 p; 0x10; Z.lor 0x00 (_xoffset s)];
             Data (slice (buffer s) (128 * p) (128 * p + 128)) ])
         [0; 1; 2; 3; 4; 5; 6; 7] /\
    wire (frames evs)
    = CmdByte 0x40
      :: flat_map (fun p =>
           [ CmdByte (Z.lor 0xB0 p); CmdByte 0x10;
             CmdByte (Z.lor 0x00 (_xoffset s));
             DataBlock (slice (buffer s) (128 * p) (128 * p + 128)) ])
         [0; 1; 2; 3; 4; 5; 6; 7].
Proof.
  intros Hwf. exists (show_events s).
  split; [apply show_run; [now apply wf_cs | now apply wf_xoffset_byte]|].
  split; reflexivity.
Qed.

Lemma C8_show_sequence_witness :
  wf lcd0 = true /\
  exists evs, show lcd0 = (Returned tt, lcd0, evs)
              /\ hd (CmdByte 0) (wire (frames evs)) = CmdByte 0x40.
Proof.
  split; [reflexivity|].
  destruct (C8_show_sequence lcd0 eq_refl) as (evs & Hrun & _ & Hw).
  exists evs. split; [assumption|]. rewrite Hw. reflexivity.
Defined.

(** C8 as stated fails: on a constructed driver the stream of one [show]
    is not the per-page sequence with a start-line command in front of each
    page; the start-line command occurs once among the command bytes, not
    eight times, and the sixth item on the wire is the address of page 1
    where the stated sequence has a second start-line command. *)
Lemma C8_start_line_is_emitted_once :
  exists evs,
    show lcd0 = (Returned tt, lcd0, evs) /\
    wire (frames evs) <> show_wire_start_line_per_page lcd0 /\
    count_occ Z.eq_dec (command_bytes (frames evs)) 0x40 = 1%nat /\
    count_occ Z.eq_dec
      (flat_map (fun w => match w with CmdByte b => [b] | DataBlock _ => [] end)
                (show_wire_start_line_per_page lcd0)) 0x40 = 8%nat /\
    nth 5 (wire (frames evs)) (CmdByte 0) = CmdByte 0xB1 /\
    nth 5 (show_wire_start_line_per_page lcd0) (CmdByte 0) = CmdByte 0x40.
Proof.
  exists (show_events lcd0).
  split; [now apply show_run|].
  split.
  - intros H. apply (f_equal (fun l => nth 5 l (CmdByte 0))) in H.
    vm_compute in H. discriminate H.
  - repeat split; vm_compute; reflexivity.
Qed.

(** ** SEG and COM direction in [init] and in [rotate] *)

(** C9: for rotation 0 on a constructed driver, [init] sends the direction
    pair SEG normal 0xA0, COM reverse 0xC8, while [rotate(0)] hands 0xA0 and
    then COM normal 0xC0 to [_write_command], which writes 160 zero bytes
    and 192 zero bytes: no direction byte reaches the bus, and the COM
    direction [rotate] asks for is the opposite of the one in [init]. *)
Theorem C9_direction_bytes_differ :
  exists e_init e_rotate s',
    init 0 false 0x1F 0x03 lcd0 = (Returned tt, lcd0, e_init) /\
    rotate 0 lcd0 = (Returned tt, s', e_rotate) /\
    direction_bytes (frames e_init) = [0xA0; 0xC8] /\
    frames e_rotate = [Command (repeat 0 160); Command (repeat 0 192)] /\
    direction_bytes (frames e_rotate) = [] /\
    direction_bytes (frames e_init) <> direction_bytes (frames e_rotate).
Proof.
  eexists _, _, _. split; [now apply init_run|].
  split; [now apply rotate_0_run|].
  split; [reflexivity|]. split; [reflexivity|]. split; [reflexivity|].
  intros H. vm_compute in H. discriminate H.
Qed.

(** The same at rotation 180: [init] sends SEG reverse 0xA1 and COM normal
    0xC0; [rotate(180)] asks for 0xA1 and COM reverse 0xC8 and writes
    zeros. *)
Lemma direction_bytes_differ_180 :
  exists e_init e_rotate s',
    init 180 false 0x1F 0x03 lcd0 = (Returned tt, lcd0, e_init) /\
    rotate 180 lcd0 = (Returned tt, s', e_rotate) /\
    direction_bytes (frames e_init) = [0xA1; 0xC0] /\
    frames e_rotate = [Command (repeat 0 161); Command (repeat 0 200)].
Proof.
  eexists _, _, _. split; [now apply init_run|].
  split; [now apply rotate_180_run|]. split; reflexivity.
Qed.

(** ** A driver without a chip-select line *)

Lemma write_command_fails s c :
  cs s = None -> fails_before_bus (_write_command c) s.
Proof.
  intros H. exists s, []. split; [|reflexivity].
  apply write_command_unwired. now rewrite H.
Qed.

Lemma bind_fails {A B} (m : M A) (k : A -> M B) s :
  fails_before_bus m s -> fails_before_bus (bind m k) s.
Proof.
  intros (s' & evs & H & Hw). exists s', evs. split; [|assumption].
  now apply bind_raised.
Qed.

Lemma reset_fails s : cs s = None -> fails_before_bus reset s.
Proof.
  intros H. destruct s as [x c [[|g]|] b]; simpl in H; subst c.
  - exists (mkST7567 x None (Some PyNone) b), []. split; reflexivity.
  - exists (mkST7567 x None (Some (PyPin g)) b), reset_toggle.
    split; reflexivity.
  - exists (mkST7567 x None None b), []. split; reflexivity.
Qed.

Lemma init_without_cs rs_arg rotation inverse c rr :
  exists s' evs,
    __init__ PyNone rs_arg rotation inverse c rr blank
    = (Raised AttributeError, s', evs)
    /\ cs s' = None /\ spi_writes evs = [].
Proof.
  destruct rs_arg as [|g].
  - eexists _, []. repeat split; reflexivity.
  - eexists _, ([PinInit RS 0] ++ reset_toggle). repeat split; reflexivity.
Qed.

Lemma construct_without_cs rs_arg rotation inverse c rr :
  exists evs,
    construct PyNone rs_arg rotation inverse c rr
    = (Raised AttributeError, evs)
    /\ spi_writes evs = [].
Proof.
  destruct (init_without_cs rs_arg rotation inverse c rr)
    as (s' & evs & E & _ & Hw).
  exists evs. unfold construct. rewrite E. now split.
Qed.

(** C10: with [cs=None] the constructor leaves the attribute [cs]
    unassigned and fails inside its own [reset] with [AttributeError],
    whatever the other arguments are, before anything is written to the bus;
    and on any object whose [cs] attribute is unassigned, every method that
    writes to the bus ([reset], [init], [contrast], [invert], [rotate] with
    0 or 180, [sleep], [show]) and both write primitives fail with
    [AttributeError] before any payload reaches [spi.write]. *)
Theorem C10_no_chip_select_no_driver
    (s : ST7567) (rs_arg : pyobj) (rotation : Z) (inverse on : bool)
    (c rr : Z) (cmd : pycmd) (data : list Z) :
  cs s = None ->
  (exists s' evs,
     __init__ PyNone rs_arg rotation inverse c rr blank
     = (Raised AttributeError, s', evs)
     /\ cs s' = None /\ spi_writes evs = []) /\
  (exists evs,
     construct PyNone rs_arg rotation inverse c rr
     = (Raised AttributeError, evs)
     /\ spi_writes evs = []) /\
  fails_before_bus (_write_command cmd) s /\
  fails_before_bus (_write_data data) s /\
  fails_before_bus reset s /\
  fails_before_bus (init rotation inverse c rr) s /\
  fails_before_bus (contrast c) s /\
  fails_before_bus (invert inverse) s /\
  fails_before_bus (rotate 0) s /\
  fails_before_bus (rotate 180) s /\
  fails_before_bus (sleep on) s /\
  fails_before_bus show s.
Proof.
  intros H.
  split; [apply init_without_cs|].
  split; [apply construct_without_cs|].
  split; [now apply write_command_fails|].
  split.
  { exists s, []. split; [|reflexivity].
    apply write_data_unwired. now rewrite H. }
  split; [now apply reset_fails|].
  split; [rewrite init_unfold; now apply write_command_fails|].
  split; [apply bind_fails; now apply write_command_fails|].
  split.
  { unfold invert. destruct (Bool.eqb inverse false);
      now apply write_command_fails. }
  split; [apply bind_fails; now apply write_command_fails|].
  split; [apply bind_fails; now apply write_command_fails|].
  split.
  { unfold sleep. destruct on; apply bind_fails; now apply write_command_fails. }
  apply bind_fails. now apply write_command_fails.
Qed.

Lemma C10_no_chip_select_no_driver_witness :
  cs blank = None /\
  (exists evs,
     construct PyNone (PyPin 6) 0 false 0x1F 0x03
     = (Raised AttributeError, evs)
     /\ spi_writes evs = []) /\
  fails_before_bus show blank.
Proof.
  split; [reflexivity|].
  destruct (C10_no_chip_select_no_driver blank (PyPin 6) 0 false true
              0x1F 0x03 (PyInt 0) [] eq_refl)
    as (_ & Hc & _ & _ & _ & _ & _ & _ & _ & _ & _ & Hs).
  split; assumption.
Defined.

(** * Beyond the claims: what call sequences do *)

(** ** Each call, then sequences of calls *)

Lemma do_call_events s c :
  wf s = true ->
  do_call c s = (Returned tt, call_state c s, call_events s c)
  /\ wf (call_state c s) = true.
Proof.
  intros H. pose proof (wf_cs _ H) as Hc.
  assert (do_call c s = (Returned tt, call_state c s, call_events s c)) as E.
  { destruct c as [|r i c rr|c|i|r|on| |c]; simpl do_call.
    - apply wf_inv in H as (_ & Hr & _). now rewrite reset_run.
    - now rewrite init_run.
    - now rewrite contrast_run.
    - now rewrite invert_run.
    - unfold call_state, call_events, call_frames.
      destruct (Z.eq_dec r 0) as [->|N0];
        [|destruct (Z.eq_dec r 180) as [->|N1]].
      + now rewrite rotate_0_run.
      + now rewrite rotate_180_run.
      + rewrite rotate_other_run by assumption.
        destruct (r =? 0) eqn:E0; [apply Z.eqb_eq in E0; contradiction|].
        destruct (r =? 180) eqn:E1; [apply Z.eqb_eq in E1; contradiction|].
        reflexivity.
    - rewrite sleep_run by assumption. now destruct on.
    - rewrite show_run by (assumption || now apply wf_xoffset_byte).
      reflexivity.
    - reflexivity. }
  split; [exact E|].
  destruct (do_call_run s c H) as (s' & evs & E' & Hwf & _).
  rewrite E in E'. now injection E' as <- _.
Qed.

Lemma do_calls_events calls : forall s,
  wf s = true ->
  do_calls calls s = (Returned tt, calls_state calls s, calls_events s calls)
  /\ wf (calls_state calls s) = true.
Proof.
  induction calls as [|c calls IH]; intros s H.
  - now split.
  - destruct (do_call_events s c H) as (E & Hwf).
    destruct (IH _ Hwf) as (E' & Hwf'). split; [|exact Hwf'].
    unfold do_calls. simpl for_each. fold (do_calls calls).
    now apply (bind_run _ _ s tt (call_state c s)).
Qed.

Lemma construct_events_calls a b r i c rr :
  construct_events a b r i c rr
  = [PinInit CS 1; PinInit RS 0]
    ++ calls_events (constructed a b r)
         [CallReset; CallShow; CallInit r i c rr; CallRotate r; CallInvert i].
Proof.
  unfold construct_events, rotate_events, constructed, column_offset.
  simpl calls_events. unfold call_state, call_events, call_frames.
  destruct (r =? 0), (r =? 180); reflexivity.
Qed.

(** ** Decoding a trace gives back the frames that were written *)

Lemma frames_from_flat_map fs : forall d rest,
  exists d',
    frames_from d (flat_map frame_events fs ++ rest)
    = fs ++ frames_from d' rest.
Proof.
  induction fs as [|f fs IH]; intros d rest.
  - now exists d.
  - simpl flat_map. rewrite <- app_assoc.
    destruct f as [l|l]; simpl.
    + destruct (IH 0 rest) as (d' & E). exists d'. now rewrite E.
    + destruct (IH 1 rest) as (d' & E). exists d'. now rewrite E.
Qed.

Lemma frames_from_call s c d rest :
  exists d',
    frames_from d (call_events s c ++ rest)
    = call_frames s c ++ frames_from d' rest.
Proof.
  unfold call_events. rewrite <- app_assoc.
  destruct (frames_from_flat_map (call_frames s c) d rest) as (d' & E).
  exists d'. rewrite <- E. now destruct c.
Qed.

Lemma frames_from_calls calls : forall s d,
  frames_from d (calls_events s calls) = calls_frames s calls.
Proof.
  induction calls as [|c calls IH]; intros s d; simpl.
  - reflexivity.
  - destruct (frames_from_call s c d (calls_events (call_state c s) calls))
      as (d' & E).
    now rewrite E, IH.
Qed.

(** ** A property every transaction keeps holds along every trace *)

Section TraceInvariant.
Context {X : Type} (step : X -> event -> X) (good : X -> Prop).

Hypothesis frame_good :
  forall f x, good x -> good (fold_left step (frame_events f) x).
Hypothesis toggle_good :
  forall x, good x -> good (fold_left step reset_toggle x).

Lemma frames_good fs : forall x,
  good x -> good (fold_left step (flat_map frame_events fs) x).
Proof.
  induction fs as [|f fs IH]; intros x Hx; simpl flat_map.
  - exact Hx.
  - rewrite fold_left_app. apply IH. now apply frame_good.
Qed.

Lemma call_good s c x :
  good x -> good (fold_left step (call_events s c) x).
Proof.
  intros Hx. unfold call_events. rewrite fold_left_app.
  apply frames_good. destruct c; try exact Hx. now apply toggle_good.
Qed.

Lemma calls_good calls : forall s x,
  good x -> good (fold_left step (calls_events s calls) x).
Proof.
  induction calls as [|c calls IH]; intros s x Hx; simpl calls_events.
  - exact Hx.
  - rewrite fold_left_app. apply IH. now apply call_good.
Qed.

Lemma construct_then_calls_good a b r i c rr calls x0 :
  good (fold_left step [PinInit CS 1; PinInit RS 0] x0) ->
  good (fold_left step
          (construct_events a b r i c rr
           ++ calls_events (constructed a b r) calls) x0).
Proof.
  intros H0. rewrite construct_events_calls, !fold_left_app.
  apply calls_good. now apply calls_good.
Qed.
End TraceInvariant.

Lemma bus_frame_idle f :
  fold_left bus_step (frame_events f) (Some (false, false))
  = Some (false, false).
Proof. now destruct f. Qed.

Lemma rs_frame_settled f t :
  5 < t ->
  fold_left rs_step (frame_events f) (Some (1, t)) = Some (1, t).
Proof.
  intros Ht. assert ((t <=? 5) = false) as E by (apply Z.leb_gt; lia).
  destruct f; simpl; now rewrite E.
Qed.

(** ** The extra properties *)

(** X1: a driver constructed with both control lines never raises.
    Whatever the rotation, inverse flag, contrast and regulation ratio, the
    constructor returns an object that satisfies the class invariant, and
    from there every sequence of calls, with any arguments, returns and
    keeps the invariant. *)
Theorem constructed_driver_never_raises
    (a b r : Z) (i : bool) (c rr : Z) (calls : list call) :
  exists s0 e0 s1 e1,
    construct (PyPin a) (PyPin b) r i c rr = (Returned s0, e0) /\
    wf s0 = true /\
    do_calls calls s0 = (Returned tt, s1, e1) /\
    wf s1 = true.
Proof.
  pose proof (constructed_wf a b r) as H0.
  destruct (do_calls_events calls _ H0) as (E & H1).
  eexists _, _, _, _. split; [apply construct_run|].
  split; [exact H0|]. split; [exact E|exact H1].
Qed.

(** X2: the chip-select protocol holds along the whole life of a driver.
    In the trace of a construction followed by any sequence of calls, every
    [spi.write] happens while chip-select is low and after the DC line was
    driven in that same window, and chip-select is high at the end;
    whatever state the lines were in before. *)
Theorem bus_writes_are_framed
    (a b r : Z) (i : bool) (c rr : Z) (calls : list call)
    (before : bool * bool) :
  exists s0 e0 s1 e1,
    construct (PyPin a) (PyPin b) r i c rr = (Returned s0, e0) /\
    do_calls calls s0 = (Returned tt, s1, e1) /\
    fold_left bus_step (e0 ++ e1) (Some before) = Some (false, false).
Proof.
  destruct (do_calls_events calls _ (constructed_wf a b r)) as (E & _).
  eexists _, _, _, _. split; [apply construct_run|]. split; [exact E|].
  apply (construct_then_calls_good bus_step
           (fun x => x = Some (false, false))).
  - intros f x ->. apply bus_frame_idle.
  - now intros x ->.
  - now destruct before.
Qed.

(** X3: the reset line is handled safely along the whole life of a
    driver.  In the trace of a construction followed by any sequence of
    calls the line is never raised 5 us or less after it went low, no
    [spi.write] happens while it is low or 5 us or less after it changed,
    and at the end it is high; whatever its state before. *)
Theorem reset_line_is_respected
    (a b r : Z) (i : bool) (c rr : Z) (calls : list call)
    (before : Z * Z) :
  exists s0 e0 s1 e1 t,
    construct (PyPin a) (PyPin b) r i c rr = (Returned s0, e0) /\
    do_calls calls s0 = (Returned tt, s1, e1) /\
    fold_left rs_step (e0 ++ e1) (Some before) = Some (1, t) /\ 5 < t.
Proof.
  destruct (do_calls_events calls _ (constructed_wf a b r)) as (E & _).
  assert (exists t,
            fold_left rs_step
              (construct_events a b r i c rr
               ++ calls_events (constructed a b r) calls) (Some before)
            = Some (1, t) /\ 5 < t) as (t & Ht & Hlt).
  { set (settled := fun x : option (Z * Z) =>
                      exists t, x = Some (1, t) /\ 5 < t).
    assert (forall f x, settled x ->
                        settled (fold_left rs_step (frame_events f) x)) as Hf.
    { intros f x (t & -> & Ht). exists t.
      split; [now apply rs_frame_settled|exact Ht]. }
    assert (forall x, settled x ->
                      settled (fold_left rs_step reset_toggle x)) as Ht.
    { intros x (t & -> & Ht). exists 6. split; [reflexivity|lia]. }
    rewrite construct_events_calls.
    change (calls_events (constructed a b r)
              [CallReset; CallShow; CallInit r i c rr; CallRotate r;
               CallInvert i])
      with (call_events (constructed a b r) CallReset
            ++ calls_events (constructed a b r)
                 [CallShow; CallInit r i c rr; CallRotate r; CallInvert i]).
    rewrite !fold_left_app.
    apply (calls_good rs_step settled Hf Ht).
    apply (calls_good rs_step settled Hf Ht).
    (* the constructor drives the line low; its [reset] then pulses it *)
    exists 6. split; [|lia]. destruct before as [l t0]. simpl.
    rewrite andb_false_r. reflexivity. }
  eexists _, _, _, _, t. split; [apply construct_run|]. split; [exact E|].
  split; assumption.
Qed.

Lemma call_state_lines c s :
  cs (call_state c s) = cs s /\ rs (call_state c s) = rs s.
Proof.
  destruct c; try (now split). simpl.
  destruct (rotation =? 0); [now split|].
  destruct (rotation =? 180); now split.
Qed.

Lemma call_state_buffer c s :
  is_fill c = false -> buffer (call_state c s) = buffer s.
Proof.
  destruct c; try reflexivity; try discriminate. intros _. simpl.
  destruct (rotation =? 0); [reflexivity|].
  destruct (rotation =? 180); reflexivity.
Qed.

Lemma call_state_xoffset c s :
  is_rotate c = false -> _xoffset (call_state c s) = _xoffset s.
Proof. destruct c; try reflexivity; discriminate. Qed.

Lemma call_state_same c s :
  is_fill c || is_rotate c = false -> call_state c s = s.
Proof. destruct c; try reflexivity; discriminate. Qed.

Lemma calls_state_same calls : forall s,
  forallb (fun c => negb (is_fill c || is_rotate c)) calls = true ->
  calls_state calls s = s.
Proof.
  induction calls as [|c calls IH]; intros s H; simpl in *.
  - reflexivity.
  - apply andb_true_iff in H as (Hc & H). apply negb_true_iff in Hc.
    rewrite call_state_same by assumption. now apply IH.
Qed.

(** X4: each method touches only its own attribute.  Along any sequence of
    calls on a constructed driver the [cs] and [rs] attributes stay as they
    are and the buffer keeps its length; the buffer's contents change only
    through [fill], and the column offset only through [rotate] ([init]
    with another rotation does not move it). *)
Theorem methods_touch_only_their_attribute (s : ST7567) (calls : list call) :
  wf s = true ->
  exists s' evs,
    do_calls calls s = (Returned tt, s', evs) /\
    cs s' = cs s /\ rs s' = rs s /\
    length (buffer s') = length (buffer s) /\
    (forallb (fun c => negb (is_fill c)) calls = true ->
     buffer s' = buffer s) /\
    (forallb (fun c => negb (is_rotate c)) calls = true ->
     _xoffset s' = _xoffset s).
Proof.
  intros H. destruct (do_calls_events calls s H) as (E & Hwf).
  exists (calls_state calls s), (calls_events s calls).
  split; [exact E|]. clear E.
  assert (length (buffer (calls_state calls s)) = length (buffer s)) as Hlen.
  { apply wf_inv in H as (_ & _ & -> & _).
    now apply wf_inv in Hwf as (_ & _ & -> & _). }
  clear H Hwf. revert s Hlen.
  induction calls as [|c calls IH]; intros s Hlen; simpl calls_state in *.
  - repeat split; reflexivity.
  - assert (length (buffer (call_state c s)) = length (buffer s)) as Hl.
    { destruct c; try reflexivity.
      - simpl. destruct (rotation =? 0); [reflexivity|].
        destruct (rotation =? 180); reflexivity.
      - simpl. apply repeat_length. }
    destruct (IH (call_state c s)) as (Hc & Hr & _ & Hb & Hx);
      [congruence|].
    destruct (call_state_lines c s) as (Hc1 & Hr1).
    split; [congruence|]. split; [congruence|]. split; [exact Hlen|].
    split; intros Hall; simpl in Hall;
      apply andb_true_iff in Hall as (H1 & H2);
      apply negb_true_iff in H1.
    + rewrite Hb by assumption. now apply call_state_buffer.
    + rewrite Hx by assumption. now apply call_state_xoffset.
Qed.

Lemma methods_touch_only_their_attribute_witness :
  wf lcd0 = true /\
  exists s' evs,
    do_calls [CallInit 180 true 0 0; CallRotate 180; CallSleep true] lcd0
    = (Returned tt, s', evs)
    /\ buffer s' = buffer lcd0.
Proof.
  split; [reflexivity|].
  destruct (methods_touch_only_their_attribute lcd0
              [CallInit 180 true 0 0; CallRotate 180; CallSleep true] eq_refl)
    as (s' & evs & E & _ & _ & _ & Hb & _).
  exists s', evs. split; [exact E|]. apply Hb. reflexivity.
Defined.

(** X5: [reset], [init], [contrast], [invert], [sleep] and [show] leave
    the object exactly as it was.  So after any sequence of them (a sleep
    and wake cycle, say) a [show] emits event for event what a [show]
    before the sequence emits. *)
Theorem show_is_unaffected_by_other_calls (s : ST7567) (calls : list call) :
  wf s = true ->
  forallb (fun c => negb (is_fill c || is_rotate c)) calls = true ->
  exists evs e_show,
    do_calls calls s = (Returned tt, s, evs) /\
    show s = (Returned tt, s, e_show) /\
    (do_calls calls ;; show) s = (Returned tt, s, evs ++ e_show).
Proof.
  intros H Hall. destruct (do_calls_events calls s H) as (E & _).
  rewrite (calls_state_same calls s Hall) in E.
  assert (show s = (Returned tt, s, show_events s)) as Es
    by (apply show_run; [now apply wf_cs | now apply wf_xoffset_byte]).
  exists (calls_events s calls), (show_events s).
  split; [exact E|]. split; [exact Es|].
  now apply (bind_run _ _ s tt s).
Qed.

Lemma show_is_unaffected_by_other_calls_witness :
  wf lcd0 = true /\
  exists evs e_show,
    show lcd0 = (Returned tt, lcd0, e_show) /\
    (do_calls [CallSleep true; CallSleep false] ;; show) lcd0
    = (Returned tt, lcd0, evs ++ e_show).
Proof.
  split; [reflexivity|].
  destruct (show_is_unaffected_by_other_calls lcd0
              [CallSleep true; CallSleep false] eq_refl eq_refl)
    as (evs & e_show & _ & Es & E).
  exists evs, e_show. split; assumption.
Defined.

(** ** What the frames of a call sequence contain *)

Lemma data_payloads_app fs1 fs2 :
  data_payloads (fs1 ++ fs2) = data_payloads fs1 ++ data_payloads fs2.
Proof. apply flat_map_app. Qed.

Lemma command_bytes_app fs1 fs2 :
  command_bytes (fs1 ++ fs2) = command_bytes fs1 ++ command_bytes fs2.
Proof. apply flat_map_app. Qed.

Lemma call_frames_data s c :
  data_payloads (call_frames s c)
  = if is_show c
    then map (fun p => slice (buffer s) (128 * p) (128 * p + 128)) (range 8)
    else [].
Proof.
  destruct c; try reflexivity; simpl.
  - destruct (rotation =? 0); [reflexivity|].
    destruct (rotation =? 180); reflexivity.
  - now destruct on.
Qed.

Lemma zeros_all_zero n : Forall (fun b => b = 0) (zeros n).
Proof. apply Forall_forall. intros x Hx. now apply repeat_spec in Hx. Qed.

Lemma command_bytes_zero fs :
  Forall (fun f => exists n, f = Command (zeros n)) fs ->
  Forall (fun b => b = 0) (command_bytes fs).
Proof.
  induction 1 as [|f fs (n & ->) _ IH].
  - constructor.
  - change (command_bytes (Command (zeros n) :: fs))
      with (zeros n ++ command_bytes fs).
    apply Forall_app. split; [apply zeros_all_zero|exact IH].
Qed.

Lemma call_frames_zero s c :
  passes_int c = true ->
  Forall (fun b => b = 0) (command_bytes (call_frames s c)).
Proof.
  intros H. apply command_bytes_zero.
  destruct c; try discriminate H; unfold call_frames.
  - repeat constructor; eexists; reflexivity.
  - repeat constructor; eexists; reflexivity.
  - repeat constructor; eexists; reflexivity.
  - destruct (rotation =? 0); [|destruct (rotation =? 180)];
      repeat constructor; eexists; reflexivity.
  - destruct on; repeat constructor; eexists; reflexivity.
Qed.

(** X6: display data comes from [show] and from nothing else.  In the
    trace of any sequence of calls on a constructed driver there are eight
    data payloads for each [show] in the sequence and none besides, and each
    payload has the 128 bytes of a page. *)
Theorem data_comes_only_from_show (s : ST7567) (calls : list call) :
  wf s = true ->
  exists s' evs,
    do_calls calls s = (Returned tt, s', evs) /\
    length (data_payloads (frames evs))
    = (8 * length (filter is_show calls))%nat /\
    Forall (fun d => length d = 128%nat) (data_payloads (frames evs)).
Proof.
  intros H. destruct (do_calls_events calls s H) as (E & _).
  exists (calls_state calls s), (calls_events s calls).
  split; [exact E|]. clear E. unfold frames. rewrite frames_from_calls.
  revert s H. induction calls as [|c calls IH]; intros s H.
  - split; [reflexivity|constructor].
  - destruct (do_call_events s c H) as (_ & Hwf).
    destruct (IH _ Hwf) as (Hn & Hall).
    simpl calls_frames. rewrite data_payloads_app, call_frames_data.
    rewrite length_app, Hn. simpl filter.
    destruct (is_show c); simpl is_show.
    + split; [rewrite length_map; simpl length; lia|].
      apply Forall_app. split; [|exact Hall].
      apply page_slices_length. now apply wf_inv in H.
    + split; [reflexivity|exact Hall].
Qed.

Lemma data_comes_only_from_show_witness :
  wf lcd0 = true /\
  exists s' evs,
    do_calls [CallShow; CallContrast 10; CallShow] lcd0
    = (Returned tt, s', evs)
    /\ length (data_payloads (frames evs)) = 16%nat.
Proof.
  split; [reflexivity|].
  destruct (data_comes_only_from_show lcd0
              [CallShow; CallContrast 10; CallShow] eq_refl)
    as (s' & evs & E & Hn & _).
  exists s', evs. split; [exact E|exact Hn].
Defined.

(** X7: [reset], [contrast], [invert], [rotate] and [sleep] put nothing
    but zero bytes on the bus.  Each hands a bare integer to
    [_write_command], whose [bytearray(cmd)] makes that many zero bytes; so
    in the trace of any sequence of these calls, with any arguments, every
    command byte is 0x00 and there is no data. *)
Theorem int_commands_reach_the_bus_as_zeros (s : ST7567) (calls : list call) :
  wf s = true ->
  forallb passes_int calls = true ->
  exists s' evs,
    do_calls calls s = (Returned tt, s', evs) /\
    Forall (fun b => b = 0) (command_bytes (frames evs)) /\
    data_payloads (frames evs) = [].
Proof.
  intros H Hall. destruct (do_calls_events calls s H) as (E & _).
  exists (calls_state calls s), (calls_events s calls).
  split; [exact E|]. clear E H. unfold frames. rewrite frames_from_calls.
  revert s. induction calls as [|c calls IH]; intros s.
  - split; [constructor|reflexivity].
  - simpl in Hall. apply andb_true_iff in Hall as (Hc & Hall).
    destruct (IH Hall (call_state c s)) as (Hz & Hd).
    simpl calls_frames. rewrite command_bytes_app, data_payloads_app, Hd.
    split.
    + apply Forall_app. split; [now apply call_frames_zero|exact Hz].
    + rewrite call_frames_data. now destruct c.
Qed.

Lemma int_commands_reach_the_bus_as_zeros_witness :
  wf lcd0 = true /\
  exists s' evs,
    do_calls [CallInvert true; CallRotate 180; CallSleep true] lcd0
    = (Returned tt, s', evs)
    /\ Forall (fun b => b = 0) (command_bytes (frames evs)).
Proof.
  split; [reflexivity|].
  destruct (int_commands_reach_the_bus_as_zeros lcd0
              [CallInvert true; CallRotate 180; CallSleep true]
              eq_refl eq_refl)
    as (s' & evs & E & Hz & _).
  exists s', evs. split; [exact E|exact Hz].
Defined.

(** ** The constructor on the wire *)

Lemma is_direction_small b : 0 <= b < 160 -> is_direction b = false.
Proof.
  intros H. unfold is_direction, ST7567_SEG_DIRECTION_NORMAL,
    ST7567_SEG_DIRECTION_REVERSE, ST7567_COM_DIRECTION_NORMAL,
    ST7567_COM_DIRECTION_REVERSE.
  rewrite !orb_false_iff. repeat split; apply Z.eqb_neq; lia.
Qed.

Lemma filter_zeros n : filter is_direction (zeros n) = [].
Proof.
  unfold zeros. induction (Z.to_nat n) as [|k IH]; [reflexivity|exact IH].
Qed.

Lemma construct_frames a b r i c rr :
  frames (construct_events a b r i c rr) =
    Command (repeat 0 226)
    :: Command [0x40]
    :: flat_map (fun p =>
         [ Command [Z.lor 0xB0 p; 0x10; if r =? 0 then 0x00 else 0x04];
           Data (repeat 0 128) ])
       [0; 1; 2; 3; 4; 5; 6; 7]
    ++ [Command (init_commands r i c rr)]
    ++ (if r =? 0 then [Command (repeat 0 160); Command (repeat 0 192)]
        else if r =? 180
             then [Command (repeat 0 161); Command (repeat 0 200)]
             else [])
    ++ [Command (repeat 0 (if i then 167 else 166))].
Proof.
  unfold construct_events, rotate_events, constructed, column_offset.
  destruct (r =? 0), (r =? 180), i; reflexivity.
Qed.

(** X8: what a successful construction sends, in order: the reset write
    (226 zero bytes), the start line, the eight pages of an all-zero buffer
    (which clears the display RAM) addressed with the column offset of the
    requested rotation, the fifteen bytes of [init], what [rotate] writes and
    what [invert] writes.  The buffer of the new object is 1024 zero
    bytes. *)
Theorem construction_clears_then_initialises
    (a b r : Z) (i : bool) (c rr : Z) :
  exists s0 e0,
    construct (PyPin a) (PyPin b) r i c rr = (Returned s0, e0) /\
    buffer s0 = repeat 0 1024 /\
    frames e0 =
      Command (repeat 0 226)
      :: Command [0x40]
      :: flat_map (fun p =>
           [ Command [Z.lor 0xB0 p; 0x10; if r =? 0 then 0x00 else 0x04];
             Data (repeat 0 128) ])
         [0; 1; 2; 3; 4; 5; 6; 7]
      ++ [Command (init_commands r i c rr)]
      ++ (if r =? 0 then [Command (repeat 0 160); Command (repeat 0 192)]
          else if r =? 180
               then [Command (repeat 0 161); Command (repeat 0 200)]
               else [])
      ++ [Command (repeat 0 (if i then 167 else 166))].
Proof.
  exists (constructed a b r), (construct_events a b r i c rr).
  split; [apply construct_run|]. split; [reflexivity|].
  apply construct_frames.
Qed.

Lemma direction_bytes_app fs1 fs2 :
  direction_bytes (fs1 ++ fs2) = direction_bytes fs1 ++ direction_bytes fs2.
Proof. unfold direction_bytes. now rewrite command_bytes_app, filter_app. Qed.

Lemma direction_bytes_cons_zeros n fs :
  direction_bytes (Command (zeros n) :: fs) = direction_bytes fs.
Proof.
  unfold direction_bytes.
  change (command_bytes (Command (zeros n) :: fs))
    with (zeros n ++ command_bytes fs).
  now rewrite filter_app, filter_zeros.
Qed.

Lemma direction_bytes_init r i c rr :
  direction_bytes [Command (init_commands r i c rr)]
  = if r =? 180 then [0xA1; 0xC0] else [0xA0; 0xC8].
Proof.
  unfold direction_bytes.
  change (command_bytes [Command (init_commands r i c rr)])
    with (init_commands r i c rr ++ []).
  rewrite app_nil_r. unfold init_commands.
  pose proof (land_3F_range c) as Hcr. pose proof (land_07_range rr) as Hrr.
  rewrite (lor_ratio _ Hrr).
  cbn [filter].
  rewrite (is_direction_small (32 + Z.land rr 7)) by lia.
  rewrite (is_direction_small (Z.land c 63)) by lia.
  destruct (r =? 180), i; reflexivity.
Qed.

Lemma direction_bytes_clear :
  direction_bytes
    (Command [0x40]
     :: flat_map (fun p => [Command [Z.lor 0xB0 p; 0x10; 4];
                            Data (repeat 0 128)])
          [0; 1; 2; 3; 4; 5; 6; 7])
  = [].
Proof. vm_compute. reflexivity. Qed.

(** X9: the constructor accepts a rotation other than 0 and 180 and
    leaves the driver between the two: the stored column offset is 0x04, the
    one of rotation 180, and every [show] of the construction uses it, while
    the only direction bytes sent are those [init] sends for rotation 0,
    SEG normal 0xA0 and COM reverse 0xC8. *)
Theorem construct_with_unsupported_rotation
    (a b r : Z) (i : bool) (c rr : Z) :
  r <> 0 -> r <> 180 ->
  exists s0 e0,
    construct (PyPin a) (PyPin b) r i c rr = (Returned s0, e0) /\
    _xoffset s0 = 0x04 /\
    column_lsb_commands (frames e0) = repeat 0x04 8 /\
    direction_bytes (frames e0) = [0xA0; 0xC8].
Proof.
  intros N0 N180.
  assert ((r =? 0) = false) as E0 by now apply Z.eqb_neq.
  assert ((r =? 180) = false) as E180 by now apply Z.eqb_neq.
  exists (constructed a b r), (construct_events a b r i c rr).
  split; [apply construct_run|].
  split; [unfold constructed, column_offset; now rewrite E0|].
  rewrite construct_frames, E0, E180.
  split; [unfold init_commands; now destruct i|].
  change (Command (repeat 0 226)) with (Command (zeros 226)).
  rewrite direction_bytes_cons_zeros.
  rewrite app_comm_cons, direction_bytes_app, direction_bytes_clear.
  rewrite direction_bytes_app, direction_bytes_init, E180.
  replace (repeat 0 (if i then 167%nat else 166%nat))
    with (zeros (if i then 167 else 166)) by now destruct i.
  cbn [app]. rewrite direction_bytes_cons_zeros. reflexivity.
Qed.

Lemma construct_with_unsupported_rotation_witness :
  90 <> 0 /\ 90 <> 180 /\
  exists s0 e0,
    construct (PyPin 5) (PyPin 6) 90 false 0x1F 0x03 = (Returned s0, e0)
    /\ _xoffset s0 = 0x04.
Proof.
  split; [lia|]. split; [lia|].
  destruct (construct_with_unsupported_rotation 5 6 90 false 0x1F 0x03)
    as (s0 & e0 & Hc & Hx & _); [lia|lia|].
  exists s0, e0. split; [exact Hc|exact Hx].
Defined.

(** X10: [init] and [contrast] see only the low 6 bits of the contrast
    and [init] only the low 3 bits of the regulation ratio.  An argument and
    its remainder modulo 64 (modulo 8 for the ratio) give the same run on
    every object, so contrast -1 acts as 63 and contrast 64 as 0. *)
Theorem register_arguments_are_taken_modulo_width
    (s : ST7567) (r : Z) (i : bool) (c rr : Z) :
  init r i c rr s = init r i (c mod 64) (rr mod 8) s /\
  contrast c s = contrast (c mod 64) s /\
  (-1) mod 64 = 63 /\ 64 mod 64 = 0.
Proof.
  assert (Z.land (c mod 64) 0x3F = Z.land c 0x3F) as Ec.
  { change 0x3F with (Z.ones 6). rewrite !Z.land_ones by lia.
    change (2 ^ 6) with 64. apply Z.mod_mod. lia. }
  assert (Z.land (rr mod 8) 0x07 = Z.land rr 0x07) as Er.
  { change 0x07 with (Z.ones 3). rewrite !Z.land_ones by lia.
    change (2 ^ 3) with 8. apply Z.mod_mod. lia. }
  split; [|split; [|split; reflexivity]].
  - rewrite !init_unfold. unfold init_commands. now rewrite Ec, Er.
  - unfold contrast. now rewrite Ec.
Qed.
